(** * We Are Demo Back-End: the authentication, session and access-grant endpoints

    A shallow embedding of the Express handlers of
    [src/endpoint/authentication-endpoint.ts] ([/login], [/logout],
    [/oidc-redirect]), [src/endpoint/session-endpoint.ts]
    ([/session-information]) and the VC endpoint ([POST /access-grant]).

    - JavaScript values are modelled as the handlers use them: a possibly
      [undefined] string is an [option string], truthiness is written out,
      a thrown [Error] is a [JsError], a [URL] object is a record with its
      [searchParams] as an ordered association list.
    - The handlers run in a small state-and-exception monad [M]: the state
      holds [req.session], [globalThis], [res.locals] and the trace of
      everything the handler did to the outside (capability calls, session
      writes, responses). A [throw] keeps the state written before it, as
      in JavaScript. The session that the next request finds is the one
      stored when the response was sent.
    - The services of [@vito-nv/weare-core], the Inrupt session object and
      the middleware of [@vito-nv/weare-expressjs] are not part of this
      repository: their results are the fields of a [World], and the
      parsers and printers of the JavaScript platform ([URL], [Date],
      [JSON]) are the fields of the class [Platform]. *)

From Stdlib Require Import String Ascii List ZArith Bool Lia.
Import ListNotations.

Local Open Scope string_scope.
Local Open Scope list_scope.

(** ** JavaScript values *)

(** [if (s)] on a string: every string but the empty one is truthy. *)
Definition truthy_string (s : string) : bool :=
  match s with
  | EmptyString => false
  | String _ _ => true
  end.

(** [if (x)] on a value that is a string or [undefined]. *)
Definition truthy (x : option string) : bool :=
  match x with
  | Some s => truthy_string s
  | None => false
  end.

(** A value interpolated in a template literal: [undefined] prints as the
    word. *)
Definition interpolate (x : option string) : string :=
  match x with
  | Some s => s
  | None => "undefined"
  end.

(** [a.startsWith(b)]. *)
Definition startsWith (a b : string) : bool := String.prefix b a.

(** A thrown [Error]: its constructor name and its message. *)
Record JsError : Type := mkError {
  err_name : string;
  err_message : string
}.

Definition TypeError (msg : string) : JsError := mkError "TypeError" msg.
Definition RangeError (msg : string) : JsError := mkError "RangeError" msg.
Definition SyntaxError (msg : string) : JsError := mkError "SyntaxError" msg.

(** The result of an expression that may throw. *)
Inductive Result (A : Type) : Type :=
| Ok (a : A)
| Throw (e : JsError).

Arguments Ok {A} a.
Arguments Throw {A} e.

(** A JavaScript number as these handlers meet it: an integer (a UNIX
    time) or [NaN]. *)
Inductive number : Type :=
| NaN
| Num (z : Z).

(** [x * k] for a number or [undefined]: [undefined * k] is [NaN]. *)
Definition times (x : option Z) (k : Z) : number :=
  match x with
  | Some z => Num (z * k)
  | None => NaN
  end.

(** *** URL and URLSearchParams *)

(** A [URL] object. [url_rest] is everything the handlers never touch
    (scheme, authority, path, fragment); [searchParams] is the query as
    the ordered list of its name/value pairs. *)
Record URL : Type := mkURL {
  url_rest : string;
  searchParams : list (string * string)
}.

(** [URLSearchParams.get(name)]: the value of the first pair called [name],
    [null] when there is none. *)
Fixpoint searchParams_get (name : string) (l : list (string * string))
  : option string :=
  match l with
  | [] => None
  | (k, v) :: r => if String.eqb k name then Some v else searchParams_get name r
  end.

Definition searchParams_has (name : string) (l : list (string * string)) : bool :=
  existsb (fun p => String.eqb (fst p) name) l.

Definition searchParams_delete (name : string) (l : list (string * string))
  : list (string * string) :=
  filter (fun p => negb (String.eqb (fst p) name)) l.

(** The replacing half of [set]: the first pair called [name] takes the
    value, the later ones are removed. *)
Fixpoint searchParams_replace (name value : string) (l : list (string * string))
  : list (string * string) :=
  match l with
  | [] => []
  | (k, v) :: r =>
      if String.eqb k name then (k, value) :: searchParams_delete name r
      else (k, v) :: searchParams_replace name value r
  end.

(** [URLSearchParams.set(name, value)]: replace when the name is there,
    append otherwise. *)
Definition searchParams_set (name value : string) (l : list (string * string))
  : list (string * string) :=
  if searchParams_has name l then searchParams_replace name value l
  else l ++ [(name, value)].

(** [url.searchParams.set(name, value)] as a function on the record. *)
Definition URL_set (name value : string) (u : URL) : URL :=
  mkURL (url_rest u) (searchParams_set name value (searchParams u)).

Definition URL_get (name : string) (u : URL) : option string :=
  searchParams_get name (searchParams u).

(** [new URL(u)] for [u] a [URL] object: the constructor reads [u.href] and
    parses it again, which the URL Standard makes the same record; the
    values of the model are immutable, so the copy is the record and the
    sharing of [globalThis.frontendUrl] is the state's. *)
Definition URL_copy (u : URL) : URL := u.

(** *** Date *)

(** A [Date] object: its time value in milliseconds, [None] for an
    Invalid Date. *)
Definition Date : Type := option Z.

Definition maxTimeValue : Z := 8640000000000000.

(** [new Date(n)] for a number: the time value is clipped to the range of
    the language. *)
Definition new_Date_number (n : number) : Date :=
  match n with
  | NaN => None
  | Num z => if (Z.abs z <=? maxTimeValue)%Z then Some z else None
  end.

(** *** The data of the services *)

(** [AccessGrant] of [@inrupt/solid-client-access-grants], as the handlers
    read it: [id], [expirationDate] (optional in the type, hence the [!] of
    the source) and the rest of the credential. *)
Record AccessGrant : Type := mkGrant {
  grant_id : option string;
  grant_expirationDate : option string;
  grant_credential : string
}.

(** The record the Inrupt SDK keeps in [solidStorage] under
    [solidClientAuthenticationUser:<sid>], as the handler reads it. *)
Record OidcRecord : Type := mkOidcRecord {
  codeVerifier : option string
}.

(** The answer of [oidcService.getToken]. *)
Record TokenResponse : Type := mkTokenResponse {
  id_token : option string
}.

(** [session.info] of an Inrupt [Session]. *)
Record ISessionInfo : Type := mkInfo {
  info_sessionId : string;
  info_isLoggedIn : bool;
  info_webId : option string;
  info_expirationDate : option Z
}.

(** ** The platform *)

(** The parsers and printers of the JavaScript platform the handlers call.
    - [URL_parse s] is [new URL(s)]; [None] is its [TypeError].
    - [URL_href u] is [u.href].
    - [Date_parse s] is the time value of [new Date(s)] for a string.
    - [Date_iso t] is [toISOString()] of a valid date with time value [t].
    - [JSON_stringify_grant], [JSON_parse_grant] and [JSON_parse_oidc] are
      [JSON.stringify] and [JSON.parse] at the types the handlers use. *)
Class Platform : Type := {
  URL_parse : string -> option URL;
  URL_href : URL -> string;
  Date_parse : string -> Date;
  Date_iso : Z -> string;
  JSON_stringify_grant : AccessGrant -> string;
  JSON_parse_grant : string -> Result AccessGrant;
  JSON_parse_oidc : string -> Result OidcRecord
}.

(** What the properties below use of the platform beyond its signature:
    [new URL('')] throws, and neither [toISOString] nor [JSON.stringify]
    of an object gives the empty string. *)
Class PlatformLaws (P : Platform) : Prop := {
  URL_parse_empty : URL_parse EmptyString = None;
  Date_iso_truthy : forall t, truthy_string (Date_iso t) = true;
  JSON_stringify_truthy : forall g, truthy_string (JSON_stringify_grant g) = true
}.

(** ** The state of a request *)

(** [req.session], the cookie-bound record of express-session. *)
Record CookieSession : Type := mkCookie {
  solidSid : option string;
  redirectUrl : option string;
  workaroundActive : option string;
  accessGrant : option string;
  accessGrantExpirationDate : option string;
  sess_pods : option (list string);
  locale : option string
}.

(** The globals the handlers read and write. *)
Record Globals : Type := mkGlobals {
  frontendUrl : URL
}.

(** [res.locals], as the middleware in front of the handler left it. *)
Record Locals : Type := mkLocals {
  session : option ISessionInfo;
  pods : option (list string)
}.

(** The body of [GET /session-information]. A field that is [None] is a
    key the object does not have. *)
Record SessionInformation : Type := mkView {
  isLoggedIn : bool;
  expirationDate : option string;
  accessGrantId : option string;
  view_accessGrantExpirationDate : option string;
  webId : option string;
  view_pods : option (list string)
}.

(** What a handler answers. *)
Inductive Response : Type :=
| Redirect (location : string)
| Json (body : SessionInformation)
| Send (status : Z) (body : string)
| NextError (e : JsError).

(** What a handler does to the outside, in order: the capabilities it
    calls, the fields of [req.session] it assigns ([Some v]) or deletes
    ([None]), the query parameter it sets on the shared
    [globalThis.frontendUrl], and what it answers. *)
Inductive Event : Type :=
| EvNewSession (sid : string)
| EvLogin (s : option ISessionInfo)
| EvHandleIncomingRedirect (fullUrl : string)
| EvLogout
| EvStorageGet (key : string)
| EvGetToken (code verifier state : option string)
| EvProvisionWebId (idToken : option string)
| EvFetchAccessGrant (id correlationId : option string)
| EvSessionWrite (field : string) (v : option string)
| EvFrontendUrlSet (name value : string)
| EvRespond (r : Response)
| EvUnhandledRejection (e : JsError).

(** The state of a request. [saved] is the session as express-session
    wrote it to its store: that happens once, inside [res.end()], when the
    response is sent; it is [None] as long as nothing was answered. *)
Record Ctx : Type := mkCtx {
  req_session : CookieSession;
  globals : Globals;
  locals : Locals;
  trace : list Event;
  saved : option CookieSession
}.

(** The request as the handlers read it. *)
Record Request : Type := mkRequest {
  query_redirectUrl : option string;
  query_switchIdentity : option string;
  query_code : option string;
  query_state : option string;
  header_host : option string;
  originalUrl : string;
  body_accessGrantId : option string;
  correlationId : option string;
  env_PROTOCOL : option string
}.

(** The capabilities a request consumes, with the answer each one gives
    during that request.
    - [new_Session] is the id of [new Session({storage, keepAlive})].
    - [oidc_login s] is [oidcService.login(session, handler)]: [Ok url]
      when it hands [url] to the handler (once, and what the handler
      throws comes out of [login]), [Throw e] when it fails.
    - [handleIncomingRedirect url s] and [session_logout s] are the methods
      of the Inrupt session; they answer with the [info] they leave. *)
Record World : Type := mkWorld {
  new_Session : ISessionInfo;
  oidc_login : option ISessionInfo -> Result string;
  oidc_getToken : option string -> option string -> option string -> Result TokenResponse;
  athumi_provisionWebId : option string -> Result unit;
  storage_get : string -> Result (option string);
  handleIncomingRedirect : string -> ISessionInfo -> Result ISessionInfo;
  session_logout : ISessionInfo -> Result ISessionInfo;
  vc_fetchAccessGrant : option string -> option string -> Result AccessGrant
}.

(** ** The handler monad *)

Definition M (A : Type) : Type := Ctx -> Result A * Ctx.

Definition ret {A : Type} (a : A) : M A := fun c => (Ok a, c).

Definition bind {A B : Type} (m : M A) (k : A -> M B) : M B :=
  fun c =>
    match m c with
    | (Ok a, c') => k a c'
    | (Throw e, c') => (Throw e, c')
    end.

Definition throw {A : Type} (e : JsError) : M A := fun c => (Throw e, c).

(** [try { m } catch (error) { h error }]. *)
Definition try_catch {A : Type} (m : M A) (h : JsError -> M A) : M A :=
  fun c =>
    match m c with
    | (Ok a, c') => (Ok a, c')
    | (Throw e, c') => h e c'
    end.

Declare Scope js_scope.
Delimit Scope js_scope with js.
Notation "x <- m ;; k" := (bind m (fun x => k))
  (at level 61, m at next level, right associativity) : js_scope.
Notation "m ;; k" := (bind m (fun _ => k))
  (at level 61, right associativity) : js_scope.
Local Open Scope js_scope.

Definition lift {A : Type} (r : Result A) : M A := fun c => (r, c).

Definition get_ctx : M Ctx := fun c => (Ok c, c).

Definition emit (e : Event) : M unit :=
  fun c => (Ok tt, mkCtx (req_session c) (globals c) (locals c) (trace c ++ [e])
                         (saved c)).

Definition modify_session (f : CookieSession -> CookieSession) : M unit :=
  fun c => (Ok tt, mkCtx (f (req_session c)) (globals c) (locals c) (trace c)
                         (saved c)).

Definition modify_globals (f : Globals -> Globals) : M unit :=
  fun c => (Ok tt, mkCtx (req_session c) (f (globals c)) (locals c) (trace c)
                         (saved c)).

Definition set_locals_session (s : option ISessionInfo) : M unit :=
  fun c => (Ok tt, mkCtx (req_session c) (globals c)
                         (mkLocals s (pods (locals c))) (trace c) (saved c)).

(** Sending the response. The session middleware of the application
    (express-session, mounted in front of every route) stores
    [req.session] at that moment, as it is then: what the handler writes
    to [req.session] after it has answered is not stored. *)
Definition respond (r : Response) : M unit :=
  fun c => (Ok tt, mkCtx (req_session c) (globals c) (locals c)
                         (trace c ++ [EvRespond r])
                         (match saved c with
                          | Some s => Some s
                          | None => Some (req_session c)
                          end)).

(** [res.redirect], [res.json], [res.status(n).send] and [next(error)]. *)
Definition res_redirect (location : string) : M unit := respond (Redirect location).
Definition res_json (v : SessionInformation) : M unit := respond (Json v).
Definition res_send (status : Z) (body : string) : M unit := respond (Send status body).
Definition next (e : JsError) : M unit := respond (NextError e).

(** The responses of a trace. *)
Fixpoint responses (t : list Event) : list Response :=
  match t with
  | [] => []
  | EvRespond r :: t' => r :: responses t'
  | _ :: t' => responses t'
  end.

(** Field writes on [req.session]. *)
Definition with_solidSid (v : option string) (s : CookieSession) : CookieSession :=
  mkCookie v (redirectUrl s) (workaroundActive s) (accessGrant s)
           (accessGrantExpirationDate s) (sess_pods s) (locale s).
Definition with_redirectUrl (v : option string) (s : CookieSession) : CookieSession :=
  mkCookie (solidSid s) v (workaroundActive s) (accessGrant s)
           (accessGrantExpirationDate s) (sess_pods s) (locale s).
Definition with_workaroundActive (v : option string) (s : CookieSession) : CookieSession :=
  mkCookie (solidSid s) (redirectUrl s) v (accessGrant s)
           (accessGrantExpirationDate s) (sess_pods s) (locale s).
Definition with_accessGrant (v : option string) (s : CookieSession) : CookieSession :=
  mkCookie (solidSid s) (redirectUrl s) (workaroundActive s) v
           (accessGrantExpirationDate s) (sess_pods s) (locale s).
Definition with_accessGrantExpirationDate (v : option string) (s : CookieSession)
  : CookieSession :=
  mkCookie (solidSid s) (redirectUrl s) (workaroundActive s) (accessGrant s)
           v (sess_pods s) (locale s).
Definition with_pods (v : option (list string)) (s : CookieSession) : CookieSession :=
  mkCookie (solidSid s) (redirectUrl s) (workaroundActive s) (accessGrant s)
           (accessGrantExpirationDate s) v (locale s).
Definition with_locale (v : option string) (s : CookieSession) : CookieSession :=
  mkCookie (solidSid s) (redirectUrl s) (workaroundActive s) (accessGrant s)
           (accessGrantExpirationDate s) (sess_pods s) v.

(** [date.toISOString()]: a [RangeError] on an Invalid Date. *)
Definition toISOString {P : Platform} (d : Date) : M string :=
  match d with
  | Some t => ret (Date_iso t)
  | None => throw (RangeError "Invalid time value")
  end.

(** [new Date(x)] for a string or [undefined]: [new Date(undefined)] is an
    Invalid Date. *)
Definition new_Date_string {P : Platform} (x : option string) : Date :=
  match x with
  | Some s => Date_parse s
  | None => None
  end.

(** [new URL(s)] for a string. *)
Definition new_URL {P : Platform} (s : string) : M URL :=
  match URL_parse s with
  | Some u => ret u
  | None => throw (TypeError "Invalid URL")
  end.

(** ** [sessionEndpoint]: [GET /session-information] *)

Section SessionEndpoint.
Context {P : Platform}.

Definition emptyInformation : SessionInformation :=
  mkView false None None None None None.

(** The block guarded by [if (res.locals.session)]. *)
Definition project_session (l : Locals) (v : SessionInformation) : M SessionInformation :=
  match session l with
  | Some s =>
      iso <- toISOString (new_Date_number (times (info_expirationDate s) 1000)) ;;
      let v1 := mkView (info_isLoggedIn s) (Some iso) (accessGrantId v)
                       (view_accessGrantExpirationDate v) (webId v) (view_pods v) in
      let v2 := if truthy (info_webId s)
                then mkView (isLoggedIn v1) (expirationDate v1) (accessGrantId v1)
                            (view_accessGrantExpirationDate v1) (info_webId s) (view_pods v1)
                else v1 in
      let v3 := match pods l with
                | Some p => mkView (isLoggedIn v2) (expirationDate v2) (accessGrantId v2)
                                   (view_accessGrantExpirationDate v2) (webId v2) (Some p)
                | None => v2
                end in
      ret v3
  | None => ret v
  end.

(** The block guarded by [if (req.session.accessGrant)]. *)
Definition project_grant (cs : CookieSession) (v : SessionInformation) : M SessionInformation :=
  match accessGrant cs with
  | Some raw =>
      if truthy_string raw then
        g <- lift (JSON_parse_grant raw) ;;
        if truthy (grant_id g)
        then ret (mkView (isLoggedIn v) (expirationDate v) (grant_id g)
                         (view_accessGrantExpirationDate v) (webId v) (view_pods v))
        else ret v
      else ret v
  | None => ret v
  end.

(** The block guarded by [if (req.session.accessGrantExpirationDate)]. *)
Definition project_grant_expiration (cs : CookieSession) (v : SessionInformation)
  : SessionInformation :=
  if truthy (accessGrantExpirationDate cs)
  then mkView (isLoggedIn v) (expirationDate v) (accessGrantId v)
              (accessGrantExpirationDate cs) (webId v) (view_pods v)
  else v.

Definition GET_session_information : M unit :=
  try_catch
    (c <- get_ctx ;;
     v1 <- project_session (locals c) emptyInformation ;;
     v2 <- project_grant (req_session c) v1 ;;
     res_json (project_grant_expiration (req_session c) v2))
    (fun error => next error).

End SessionEndpoint.

(** What Express is left with when the handler's promise settles: a
    rejection nobody caught answers nothing. *)
Definition settle (m : M unit) (c : Ctx) : Ctx :=
  match m c with
  | (Ok _, c') => c'
  | (Throw e, c') =>
      mkCtx (req_session c') (globals c') (locals c')
            (trace c' ++ [EvUnhandledRejection e]) (saved c')
  end.

(** [req.session.f = v] and [delete req.session.f], traced. *)
Definition session_write (field : string) (v : option string)
  (f : option string -> CookieSession -> CookieSession) : M unit :=
  modify_session (f v) ;; emit (EvSessionWrite field v).

(** ** [authenticationEndpoint]: [/login], [/logout], [/oidc-redirect] *)

Section AuthenticationEndpoint.
Context {P : Platform}.
Variable w : World.
Variable req : Request.

(** The static login hint that switches identity. *)
Definition switch_identity_hint : string := "eyJzd2l0Y2hfaWQiOiB0cnVlfQ==".

Definition webid_claim_message : string := "The token has no 'webid' claim".

(** The scope workaround of the login callbacks: [rrn] is appended to the
    scope of the login URL, or becomes the scope when there is none. *)
Definition add_rrn_scope (loginUrl : URL) : URL :=
  let scope :=
    match URL_get "scope" loginUrl with
    | Some s => if truthy_string s then (s ++ " rrn")%string else "rrn"
    | None => "rrn"
    end in
  URL_set "scope" scope loginUrl.

(** The callback handed to [oidcService.login]. The source writes it three
    times; the copies differ in the login hint only: set when
    [req.query.switchIdentity] is truthy ([/login]), never (entering the
    workaround), always (after provisioning). *)
Definition login_handler (hint : bool) (url : string) : M unit :=
  loginUrl <- new_URL url ;;
  let loginUrl1 := add_rrn_scope loginUrl in
  let loginUrl2 := if hint then URL_set "login_hint" switch_identity_hint loginUrl1
                   else loginUrl1 in
  res_redirect (URL_href loginUrl2).

(** [await globalThis.oidcService.login(session, handler)]. *)
Definition oidcService_login (s : option ISessionInfo) (handler : string -> M unit)
  : M unit :=
  emit (EvLogin s) ;;
  url <- lift (oidc_login w s) ;;
  handler url.

Definition GET_login : M unit :=
  try_catch
    (let s := new_Session w in
     emit (EvNewSession (info_sessionId s)) ;;
     session_write "solidSid" (Some (info_sessionId s)) with_solidSid ;;
     match query_redirectUrl req with
     | Some r =>
         if truthy_string r then
           u <- new_URL r ;;
           session_write "redirectUrl" (Some (URL_href u)) with_redirectUrl
         else ret tt
     | None => ret tt
     end ;;
     oidcService_login (Some s) (login_handler (truthy (query_switchIdentity req))))
    (fun error => next error).

(** [res.locals.session.m] where the session may be [undefined]. *)
Definition session_or_TypeError (member : string) : M ISessionInfo :=
  c <- get_ctx ;;
  match session (locals c) with
  | Some s => ret s
  | None =>
      throw (TypeError ("Cannot read properties of undefined (reading '" ++ member ++ "')")%string)
  end.

(** A copy of [globalThis.frontendUrl] with one parameter set. *)
Definition frontend_copy_with (name value : string) : M URL :=
  c <- get_ctx ;;
  ret (URL_set name value (URL_copy (frontendUrl (globals c)))).

Definition GET_logout : M unit :=
  try_catch
    (s <- session_or_TypeError "info" ;;
     emit EvLogout ;;
     s' <- lift (session_logout w s) ;;
     set_locals_session (Some s') ;;
     session_write "accessGrant" None with_accessGrant ;;
     session_write "accessGrantExpirationDate" None with_accessGrantExpirationDate ;;
     modify_session (with_pods None) ;;
     emit (EvSessionWrite "pods" None) ;;
     session_write "locale" None with_locale ;;
     session_write "workaroundActive" None with_workaroundActive ;;
     successUrl <- frontend_copy_with "logout" "success" ;;
     res_redirect (URL_href successUrl))
    (fun _ =>
     errorUrl <- frontend_copy_with "logout" "error" ;;
     res_redirect (URL_href errorUrl)).

Definition fullUrl : string :=
  (interpolate (env_PROTOCOL req) ++ "://" ++ interpolate (header_host req)
   ++ originalUrl req)%string.

(** The failure branch: [errorUrl] is [globalThis.frontendUrl] itself, so
    the parameter is set on the global. *)
Definition redirect_login_failed : M unit :=
  modify_globals (fun g => mkGlobals (URL_set "login" "failed" (frontendUrl g))) ;;
  emit (EvFrontendUrlSet "login" "failed") ;;
  c <- get_ctx ;;
  res_redirect (URL_href (frontendUrl (globals c))).

Definition redirect_login_success : M unit :=
  c <- get_ctx ;;
  let default :=
    successUrl <- frontend_copy_with "login" "success" ;;
    res_redirect (URL_href successUrl) in
  match redirectUrl (req_session c) with
  | Some r =>
      if truthy_string r then
        successUrl <- new_URL r ;;
        res_redirect (URL_href (URL_set "login" "success" successUrl)) ;;
        session_write "redirectUrl" None with_redirectUrl
      else default
  | None => default
  end.

(** The branch [!req.session.workaroundActive]. *)
Definition complete_redirect : M unit :=
  try_catch
    (s <- session_or_TypeError "handleIncomingRedirect" ;;
     emit (EvHandleIncomingRedirect fullUrl) ;;
     s' <- lift (handleIncomingRedirect w fullUrl s) ;;
     set_locals_session (Some s') ;;
     if negb (info_isLoggedIn s') then redirect_login_failed
     else redirect_login_success)
    (fun error =>
     if startsWith (err_message error) webid_claim_message then
       session_write "workaroundActive" (Some "create_web_id") with_workaroundActive ;;
       c <- get_ctx ;;
       oidcService_login (session (locals c)) (login_handler false)
     else throw error).

(** [JSON.parse(x!)] of what the storage answered: [JSON.parse(undefined)]
    is a [SyntaxError]. *)
Definition JSON_parse_stored (x : option string) : M OidcRecord :=
  match x with
  | Some raw => lift (JSON_parse_oidc raw)
  | None => throw (SyntaxError "Unexpected token u in JSON at position 0")
  end.

(** The branch [req.session.workaroundActive === 'create_web_id']. *)
Definition provision_web_id : M unit :=
  c <- get_ctx ;;
  let key := ("solidClientAuthenticationUser:"
              ++ interpolate (solidSid (req_session c)))%string in
  emit (EvStorageGet key) ;;
  stored <- lift (storage_get w key) ;;
  solidSession <- JSON_parse_stored stored ;;
  let codeVerifier := codeVerifier solidSession in
  emit (EvGetToken (query_code req) codeVerifier (query_state req)) ;;
  data <- lift (oidc_getToken w (query_code req) codeVerifier (query_state req)) ;;
  let idToken := id_token data in
  emit (EvProvisionWebId idToken) ;;
  lift (athumi_provisionWebId w idToken) ;;
  session_write "workaroundActive" None with_workaroundActive ;;
  oidcService_login (session (locals c)) (login_handler true).

Definition option_string_eqb (a : option string) (b : string) : bool :=
  match a with
  | Some s => String.eqb s b
  | None => false
  end.

Definition GET_oidc_redirect : M unit :=
  try_catch
    (c <- get_ctx ;;
     let workaround := workaroundActive (req_session c) in
     if negb (truthy workaround) then complete_redirect
     else if option_string_eqb workaround "create_web_id" then provision_web_id
     else if option_string_eqb workaround "delete_pod" then ret tt
     else ret tt)
    (fun error => next error).

(** ** [vcEndpoint]: [POST /access-grant] *)

Definition POST_access_grant : M unit :=
  try_catch
    (let accessGrantId := body_accessGrantId req in
     emit (EvFetchAccessGrant accessGrantId (correlationId req)) ;;
     grant <- lift (vc_fetchAccessGrant w accessGrantId (correlationId req)) ;;
     session_write "accessGrant" (Some (JSON_stringify_grant grant)) with_accessGrant ;;
     iso <- toISOString (new_Date_string (grant_expirationDate grant)) ;;
     session_write "accessGrantExpirationDate" (Some iso) with_accessGrantExpirationDate ;;
     res_send 200 "Access grant set on session")
    (fun error => next error).

End AuthenticationEndpoint.

(** ** Requests in sequence *)

(** What outlives a request: the cookie session of the browser, as the
    session store holds it, and the globals of the process. *)
Record App : Type := mkApp {
  app_session : CookieSession;
  app_globals : Globals
}.

Inductive Route : Type :=
| Login
| Logout
| OidcRedirect
| SessionInformationRoute
| AccessGrantRoute.

(** A request as it reaches its handler: the route, what the capabilities
    answer while it runs, the request, and [res.locals] as the middleware
    in front of the handler filled it. *)
Record Call : Type := mkCall {
  route : Route;
  world : World;
  request : Request;
  res_locals : Locals
}.

Definition handler {P : Platform} (c : Call) : M unit :=
  match route c with
  | Login => GET_login (world c) (request c)
  | Logout => GET_logout (world c)
  | OidcRedirect => GET_oidc_redirect (world c) (request c)
  | SessionInformationRoute => GET_session_information
  | AccessGrantRoute => POST_access_grant (world c) (request c)
  end.

(** One request: the application after it, and its trace. The session
    of the next request is the one stored when the response was sent; a
    request that is never answered stores nothing. The globals are the
    objects of the process: every write to them stays. *)
Definition serve {P : Platform} (c : Call) (a : App) : App * list Event :=
  let r := settle (handler c)
                  (mkCtx (app_session a) (app_globals a) (res_locals c) [] None) in
  (mkApp (match saved r with
          | Some s => s
          | None => app_session a
          end)
         (globals r),
   trace r).

(** Requests one after the other, the traces concatenated. *)
Fixpoint serve_all {P : Platform} (cs : list Call) (a : App) : App * list Event :=
  match cs with
  | [] => (a, [])
  | c :: rest =>
      let '(a1, t1) := serve c a in
      let '(a2, t2) := serve_all rest a1 in
      (a2, t1 ++ t2)
  end.

(** ** A reference platform

    An executable [Platform], to run the handlers on concrete requests:
    URLs without a fragment and with a form-encoded query, dates in the
    format [toISOString] prints, and the JSON of the two records as
    [JSON.stringify] writes them for values that need no escape. *)

Module Reference.

Definition str (a : ascii) : string := String a EmptyString.

Definition dquote : string := str (ascii_of_nat 34).

(** [s] cut at the first [c]: what is before it, and what is after it when
    it is there. *)
Fixpoint cut (c : ascii) (s : string) : string * option string :=
  match s with
  | EmptyString => (EmptyString, None)
  | String a r =>
      if Ascii.eqb a c then (EmptyString, Some r)
      else let '(h, t) := cut c r in (String a h, t)
  end.

(** [s] split at every [c]. *)
Fixpoint split (c : ascii) (s : string) : list string :=
  match s with
  | EmptyString => [EmptyString]
  | String a r =>
      if Ascii.eqb a c then EmptyString :: split c r
      else match split c r with
           | h :: t => String a h :: t
           | [] => [str a]
           end
  end.

(** What follows the first occurrence of [pat] in [s]. *)
Fixpoint after (pat s : string) : option string :=
  if String.prefix pat s then Some (String.substring (String.length pat) (String.length s) s)
  else match s with
       | EmptyString => None
       | String _ r => after pat r
       end.

Definition contains (pat s : string) : bool :=
  match after pat s with
  | Some _ => true
  | None => false
  end.

Fixpoint join (sep : string) (l : list string) : string :=
  match l with
  | [] => EmptyString
  | [x] => x
  | x :: r => (x ++ sep ++ join sep r)%string
  end.

(** *** Form encoding of a query *)

Definition hex_digit (n : nat) : ascii :=
  if Nat.ltb n 10 then ascii_of_nat (48 + n) else ascii_of_nat (55 + n).

Definition hex_value (a : ascii) : option nat :=
  let n := nat_of_ascii a in
  if andb (Nat.leb 48 n) (Nat.leb n 57) then Some (n - 48)
  else if andb (Nat.leb 65 n) (Nat.leb n 70) then Some (n - 55)
  else if andb (Nat.leb 97 n) (Nat.leb n 102) then Some (n - 87)
  else None.

Definition unreserved (a : ascii) : bool :=
  let n := nat_of_ascii a in
  orb (andb (Nat.leb 48 n) (Nat.leb n 57))
 (orb (andb (Nat.leb 65 n) (Nat.leb n 90))
 (orb (andb (Nat.leb 97 n) (Nat.leb n 122))
      (existsb (Nat.eqb n) [42; 45; 46; 95]))).

Fixpoint form_encode (s : string) : string :=
  match s with
  | EmptyString => EmptyString
  | String a r =>
      let n := nat_of_ascii a in
      if unreserved a then String a (form_encode r)
      else if Nat.eqb n 32 then String "+" (form_encode r)
      else String "%" (String (hex_digit (n / 16))
                      (String (hex_digit (n mod 16)) (form_encode r)))
  end.

Fixpoint form_decode (s : string) : string :=
  match s with
  | EmptyString => EmptyString
  | String a r =>
      if Ascii.eqb a "+" then String " " (form_decode r)
      else if Ascii.eqb a "%" then
        match r with
        | String h (String l r') =>
            match hex_value h, hex_value l with
            | Some x, Some y => String (ascii_of_nat (16 * x + y)) (form_decode r')
            | _, _ => String a (form_decode r)
            end
        | _ => String a (form_decode r)
        end
      else String a (form_decode r)
  end.

Definition parse_pair (s : string) : string * string :=
  match cut "=" s with
  | (k, Some v) => (form_decode k, form_decode v)
  | (k, None) => (form_decode k, EmptyString)
  end.

Definition parse_query (q : string) : list (string * string) :=
  map parse_pair (filter truthy_string (split "&" q)).

Definition print_pair (p : string * string) : string :=
  (form_encode (fst p) ++ "=" ++ form_encode (snd p))%string.

(** [new URL(s)]: a scheme and [://] in front, no fragment. *)
Definition URL_parse (s : string) : option URL :=
  let '(rest, q) := cut "?" s in
  if andb (contains "://" rest) (negb (contains "#" s)) then
    Some (mkURL rest match q with
                     | Some q' => parse_query q'
                     | None => []
                     end)
  else None.

Definition URL_href (u : URL) : string :=
  match searchParams u with
  | [] => url_rest u
  | l => (url_rest u ++ "?" ++ join "&" (map print_pair l))%string
  end.

(** *** Dates *)

Definition digit (v : Z) (i : Z) : string :=
  str (ascii_of_nat (48 + Z.to_nat ((v / 10 ^ i) mod 10))).

Definition pad2 (v : Z) : string := (digit v 1 ++ digit v 0)%string.
Definition pad3 (v : Z) : string := (digit v 2 ++ pad2 v)%string.
Definition pad4 (v : Z) : string := (digit v 3 ++ pad3 v)%string.
Definition pad6 (v : Z) : string := (digit v 5 ++ digit v 4 ++ pad4 v)%string.

Definition msPerDay : Z := 86400000.

(** The civil date of a day number counted from 1970-01-01. *)
Definition civil_from_days (days : Z) : Z * Z * Z :=
  let z := (days + 719468)%Z in
  let era := (z / 146097)%Z in
  let doe := (z - era * 146097)%Z in
  let yoe := ((doe - doe / 1460 + doe / 36524 - doe / 146096) / 365)%Z in
  let doy := (doe - (365 * yoe + yoe / 4 - yoe / 100))%Z in
  let mp := ((5 * doy + 2) / 153)%Z in
  let d := (doy - (153 * mp + 2) / 5 + 1)%Z in
  let m := if (mp <? 10)%Z then (mp + 3)%Z else (mp - 9)%Z in
  let y := (yoe + era * 400 + (if (m <=? 2)%Z then 1 else 0))%Z in
  (y, m, d).

Definition days_from_civil (y m d : Z) : Z :=
  let y' := if (m <=? 2)%Z then (y - 1)%Z else y in
  let era := (y' / 400)%Z in
  let yoe := (y' - era * 400)%Z in
  let mp := if (m <=? 2)%Z then (m + 9)%Z else (m - 3)%Z in
  let doy := ((153 * mp + 2) / 5 + d - 1)%Z in
  let doe := (yoe * 365 + yoe / 4 - yoe / 100 + doy)%Z in
  (era * 146097 + doe - 719468)%Z.

Definition print_year (y : Z) : string :=
  if andb (0 <=? y)%Z (y <=? 9999)%Z then pad4 y
  else if (y <? 0)%Z then ("-" ++ pad6 (- y))%string
  else ("+" ++ pad6 y)%string.

(** [toISOString()] of a valid time value. *)
Definition Date_iso (t : Z) : string :=
  let days := (t / msPerDay)%Z in
  let ms := (t mod msPerDay)%Z in
  let '(y, m, d) := civil_from_days days in
  (print_year y ++ "-" ++ pad2 m ++ "-" ++ pad2 d ++ "T"
   ++ pad2 (ms / 3600000) ++ ":" ++ pad2 (ms / 60000 mod 60) ++ ":"
   ++ pad2 (ms / 1000 mod 60) ++ "." ++ pad3 (ms mod 1000) ++ "Z")%string.

Fixpoint number_of (s : string) (acc : Z) : option Z :=
  match s with
  | EmptyString => Some acc
  | String a r =>
      let n := nat_of_ascii a in
      if andb (Nat.leb 48 n) (Nat.leb n 57)
      then number_of r (10 * acc + Z.of_nat (n - 48))%Z
      else None
  end.

Definition field (from len : nat) (s : string) : option Z :=
  number_of (String.substring from len s) 0%Z.

Definition in_range (lo v hi : Z) : bool := andb (lo <=? v)%Z (v <=? hi)%Z.

(** [new Date(s)] for [s] in the format [YYYY-MM-DDTHH:mm:ss.sssZ]; every
    other string is an Invalid Date here. *)
Definition Date_parse (s : string) : Date :=
  if negb (andb (Nat.eqb (String.length s) 24)
                (String.eqb (String.substring 23 1 s) "Z")) then None
  else
    match field 0 4 s, field 5 2 s, field 8 2 s,
          field 11 2 s, field 14 2 s, field 17 2 s, field 20 3 s with
    | Some y, Some m, Some d, Some hh, Some mm, Some ss, Some ms =>
        if andb (in_range 1 m 12)
          (andb (in_range 1 d 31)
          (andb (in_range 0 hh 23)
          (andb (in_range 0 mm 59) (in_range 0 ss 59))))
        then Some (days_from_civil y m d * msPerDay
                   + hh * 3600000 + mm * 60000 + ss * 1000 + ms)%Z
        else None
    | _, _, _, _, _, _, _ => None
    end.

(** *** JSON *)

Definition json_member (name value : string) : string :=
  (dquote ++ name ++ dquote ++ ":" ++ dquote ++ value ++ dquote)%string.

Definition json_optional (name : string) (value : option string) : list string :=
  match value with
  | Some v => [json_member name v]
  | None => []
  end.

(** The string member [name] of the object written in [s]. *)
Definition json_get (name s : string) : option string :=
  match after (dquote ++ name ++ dquote ++ ":" ++ dquote)%string s with
  | Some r => Some (fst (cut (ascii_of_nat 34) r))
  | None => None
  end.

Definition is_object (s : string) : bool :=
  andb (String.prefix "{" s)
       (String.eqb (String.substring (String.length s - 1) 1 s) "}").

Definition JSON_stringify_grant (g : AccessGrant) : string :=
  ("{" ++ join "," (json_optional "id" (grant_id g)
                    ++ json_optional "expirationDate" (grant_expirationDate g)
                    ++ [json_member "credential" (grant_credential g)]) ++ "}")%string.

Definition unexpected_token : JsError :=
  SyntaxError "Unexpected token in JSON at position 0".

Definition JSON_parse_grant (s : string) : Result AccessGrant :=
  if is_object s then
    Ok (mkGrant (json_get "id" s) (json_get "expirationDate" s)
                match json_get "credential" s with
                | Some c => c
                | None => EmptyString
                end)
  else Throw unexpected_token.

Definition JSON_parse_oidc (s : string) : Result OidcRecord :=
  if is_object s then Ok (mkOidcRecord (json_get "codeVerifier" s))
  else Throw unexpected_token.

#[export] Instance platform : Platform :=
  Build_Platform URL_parse URL_href Date_parse Date_iso
                 JSON_stringify_grant JSON_parse_grant JSON_parse_oidc.

End Reference.

(** ** Sample data

    Concrete worlds, requests and sessions on the reference platform, for
    the runs the properties below are checked on. *)

Module Sample.

Definition error (msg : string) : JsError := mkError "Error" msg.

Definition frontend : Globals := mkGlobals (mkURL "http://localhost:4200/" []).

Definition fresh_cookie : CookieSession :=
  mkCookie None None None None None None None.

Definition fresh_app : App := mkApp fresh_cookie frontend.

Definition pending_info : ISessionInfo := mkInfo "sid-1" false None None.

Definition logged_in_info : ISessionInfo :=
  mkInfo "sid-1" true (Some "https://pod.example/alice/profile#me") (Some 1700000000%Z).

Definition grant : AccessGrant :=
  mkGrant (Some "https://vc.example/grant/42") (Some "2030-01-01T00:00:00.000Z") "vc".

Definition stored_record : string :=
  ("{" ++ Reference.json_member "codeVerifier" "pkce-verifier-1" ++ "}")%string.

Definition login_url : string :=
  "https://idp.example/op/auth?client_id=demo&scope=openid+profile".

(** A world in which nothing works. *)
Definition down : World :=
  mkWorld pending_info
          (fun _ => Throw (error "login failed"))
          (fun _ _ _ => Throw (error "token endpoint failed"))
          (fun _ => Throw (error "provisioning failed"))
          (fun _ => Throw (error "storage failed"))
          (fun _ _ => Throw (error "redirect failed"))
          (fun _ => Throw (error "logout failed"))
          (fun _ _ => Throw (error "grant not found")).

(** The provider issues tokens without a [webid] claim; every other
    capability answers. *)
Definition first_time_user : World :=
  mkWorld pending_info
          (fun _ => Ok login_url)
          (fun _ _ _ => Ok (mkTokenResponse (Some "id-token-1")))
          (fun _ => Ok tt)
          (fun _ => Ok (Some stored_record))
          (fun _ _ => Throw (error "The token has no 'webid' claim, and its 'sub' claim is not a URL"))
          (fun s => Ok (mkInfo (info_sessionId s) false None None))
          (fun _ _ => Ok grant).

(** The redirect completes and logs the user in. *)
Definition returning_user : World :=
  mkWorld pending_info
          (fun _ => Ok login_url)
          (fun _ _ _ => Ok (mkTokenResponse (Some "id-token-1")))
          (fun _ => Ok tt)
          (fun _ => Ok (Some stored_record))
          (fun _ _ => Ok logged_in_info)
          (fun s => Ok (mkInfo (info_sessionId s) false None None))
          (fun _ _ => Ok grant).

(** The redirect completes without logging the user in. *)
Definition rejected_user : World :=
  mkWorld pending_info
          (fun _ => Ok login_url)
          (fun _ _ _ => Ok (mkTokenResponse (Some "id-token-1")))
          (fun _ => Ok tt)
          (fun _ => Ok (Some stored_record))
          (fun _ s => Ok s)
          (fun s => Ok (mkInfo (info_sessionId s) false None None))
          (fun _ _ => Ok grant).

Definition plain_request : Request :=
  mkRequest None None None None (Some "localhost:3001") "/" None None (Some "http").

Definition login_request (target : option string) : Request :=
  mkRequest target None None None (Some "localhost:3001") "/login" None None (Some "http").

Definition redirect_request : Request :=
  mkRequest None None (Some "c0de") (Some "st8") (Some "localhost:3001")
            "/oidc-redirect?code=c0de&state=st8" None None (Some "http").

Definition grant_request : Request :=
  mkRequest None None None None (Some "localhost:3001") "/access-grant"
            (Some "https://vc.example/grant/42") (Some "corr-1") (Some "http").

Definition no_session : Locals := mkLocals None None.
Definition pending : Locals := mkLocals (Some pending_info) None.
Definition logged_in : Locals :=
  mkLocals (Some logged_in_info) (Some ["https://pod.example/alice/"]).

(** A cookie session that still holds a grant while the Solid session is
    gone. *)
Definition cookie_with_grant : CookieSession :=
  mkCookie (Some "sid-1") None None
           (Some (Reference.JSON_stringify_grant grant))
           (Some "2030-01-01T00:00:00.000Z") None None.

(** One [/login] and the redirect completions of a first-time user whose
    tokens carry no [webid] claim even after the first provisioning. *)
Definition twice_provisioned : list Call :=
  [ mkCall Login first_time_user (login_request None) no_session;
    mkCall OidcRedirect first_time_user redirect_request pending;
    mkCall OidcRedirect first_time_user redirect_request pending;
    mkCall OidcRedirect first_time_user redirect_request pending;
    mkCall OidcRedirect first_time_user redirect_request pending;
    mkCall OidcRedirect returning_user redirect_request pending ].

(** The redirect completions of [twice_provisioned]. *)
Definition redirect_completions : list Call := tl twice_provisioned.

(** The first login of a user whose WebID the first provisioning creates. *)
Definition first_login : list Call :=
  [ mkCall Login first_time_user (login_request None) no_session;
    mkCall OidcRedirect first_time_user redirect_request pending;
    mkCall OidcRedirect first_time_user redirect_request pending;
    mkCall OidcRedirect returning_user redirect_request pending ].

End Sample.

(** ** Counting in traces *)

Definition is_workaround_entry (e : Event) : bool :=
  match e with
  | EvSessionWrite f (Some v) =>
      andb (String.eqb f "workaroundActive") (String.eqb v "create_web_id")
  | _ => false
  end.

Definition is_workaround_clear (e : Event) : bool :=
  match e with
  | EvSessionWrite f None => String.eqb f "workaroundActive"
  | _ => false
  end.

Definition is_provisioning (e : Event) : bool :=
  match e with
  | EvProvisionWebId _ => true
  | _ => false
  end.

Definition is_token_exchange (e : Event) : bool :=
  match e with
  | EvGetToken _ _ _ => true
  | _ => false
  end.

Definition is_redirect_completion (e : Event) : bool :=
  match e with
  | EvHandleIncomingRedirect _ => true
  | _ => false
  end.

Definition is_login (e : Event) : bool :=
  match e with
  | EvLogin _ => true
  | _ => false
  end.

Definition count (p : Event -> bool) (t : list Event) : nat :=
  List.length (filter p t).

(** The workaround is entered: [req.session.workaroundActive] is
    [create_web_id]. *)
Definition workaround_entered (a : App) : bool :=
  option_string_eqb (workaroundActive (app_session a)) "create_web_id".

(** The provisioning legs the session still owes: one when the workaround
    is entered. *)
Definition owed (a : App) : nat := if workaround_entered a then 1 else 0.

(** The date of the view can be printed: there is no session, or its
    [expirationDate] times 1000 is a time value. *)
Definition session_date_prints (l : Locals) : Prop :=
  match session l with
  | Some s => new_Date_number (times (info_expirationDate s) 1000) <> None
  | None => True
  end.

(** ** What the further properties count and run on *)

Definition is_response (e : Event) : bool :=
  match e with
  | EvRespond _ => true
  | _ => false
  end.

Definition is_unhandled_rejection (e : Event) : bool :=
  match e with
  | EvUnhandledRejection _ => true
  | _ => false
  end.

(** The number of pairs called [name] in the query of [u]. *)
Definition occurrences (name : string) (u : URL) : nat :=
  List.length (filter (fun p => String.eqb (fst p) name) (searchParams u)).

(** The two values of [workaroundActive] for which [/oidc-redirect] has
    code: unset (falsy) and [create_web_id]. *)
Definition workaround_handled (cs : CookieSession) : bool :=
  orb (negb (truthy (workaroundActive cs)))
      (option_string_eqb (workaroundActive cs) "create_web_id").

(** The scope the login callbacks give a login URL. *)
Definition scope_with_rrn (u : URL) : string :=
  match URL_get "scope" u with
  | Some s => if truthy_string s then (s ++ " rrn")%string else "rrn"
  | None => "rrn"
  end.

(** The fields of [req.session] that [/login] and [/oidc-redirect] never
    write. *)
Definition same_grant_fields (s s' : CookieSession) : Prop :=
  accessGrant s' = accessGrant s
  /\ accessGrantExpirationDate s' = accessGrantExpirationDate s
  /\ sess_pods s' = sess_pods s
  /\ locale s' = locale s.

(** The fields of [req.session] that [POST /access-grant] never writes. *)
Definition same_login_fields (s s' : CookieSession) : Prop :=
  solidSid s' = solidSid s
  /\ redirectUrl s' = redirectUrl s
  /\ workaroundActive s' = workaroundActive s
  /\ sess_pods s' = sess_pods s
  /\ locale s' = locale s.

(** What the provisioning leg needs of the capabilities to get as far as
    the deletion of [workaroundActive]: the record of the session is in
    the storage and parses, the token exchange answers, and the
    provisioning of its [id_token] succeeds. *)
Definition provisioning_succeeds {P : Platform} (w : World) (req : Request)
  (cs : CookieSession) : bool :=
  match storage_get w ("solidClientAuthenticationUser:"
                       ++ interpolate (solidSid cs))%string with
  | Ok (Some raw) =>
      match JSON_parse_oidc raw with
      | Ok record =>
          match oidc_getToken w (query_code req) (codeVerifier record)
                              (query_state req) with
          | Ok data =>
              match athumi_provisionWebId w (id_token data) with
              | Ok _ => true
              | Throw _ => false
              end
          | Throw _ => false
          end
      | Throw _ => false
      end
  | _ => false
  end.

(** The return target of the request is absent, empty or a URL. *)
Definition target_acceptable {P : Platform} (req : Request) : Prop :=
  forall r, query_redirectUrl req = Some r -> truthy_string r = true ->
            URL_parse r <> None.

Module Edge.

(** The provider answers the login with a URL that has no scope. *)
Definition bare_login : World :=
  mkWorld Sample.pending_info
          (fun _ => Ok "https://idp.example/op/auth?client_id=demo")
          (fun _ _ _ => Ok (mkTokenResponse (Some "id-token-1")))
          (fun _ => Throw (Sample.error "provisioning failed"))
          (fun _ => Ok (Some Sample.stored_record))
          (fun _ s => Ok s)
          (fun s => Ok (mkInfo (info_sessionId s) false None None))
          (fun _ _ => Ok (mkGrant (Some "https://vc.example/grant/43") None "vc")).

(** The storage has no record for the session. *)
Definition empty_storage : World :=
  mkWorld Sample.pending_info
          (fun _ => Ok Sample.login_url)
          (fun _ _ _ => Ok (mkTokenResponse (Some "id-token-1")))
          (fun _ => Ok tt)
          (fun _ => Ok None)
          (fun _ s => Ok s)
          (fun s => Ok (mkInfo (info_sessionId s) false None None))
          (fun _ _ => Ok Sample.grant).

(** Everything answers but the login after the provisioning. *)
Definition login_down : World :=
  mkWorld Sample.pending_info
          (fun _ => Throw (Sample.error "login failed"))
          (fun _ _ _ => Ok (mkTokenResponse (Some "id-token-1")))
          (fun _ => Ok tt)
          (fun _ => Ok (Some Sample.stored_record))
          (fun _ _ => Ok Sample.logged_in_info)
          (fun s => Ok (mkInfo (info_sessionId s) false None None))
          (fun _ _ => Ok Sample.grant).

(** The grant service answers with a later grant. *)
Definition later_grant : AccessGrant :=
  mkGrant (Some "https://vc.example/grant/77") (Some "2031-06-15T12:00:00.000Z") "vc".

Definition second_grant : World :=
  mkWorld Sample.pending_info
          (fun _ => Ok Sample.login_url)
          (fun _ _ _ => Ok (mkTokenResponse (Some "id-token-1")))
          (fun _ => Ok tt)
          (fun _ => Ok (Some Sample.stored_record))
          (fun _ _ => Ok Sample.logged_in_info)
          (fun s => Ok (mkInfo (info_sessionId s) false None None))
          (fun _ _ => Ok later_grant).

Definition switch_request : Request :=
  mkRequest None (Some "false") None None (Some "localhost:3001")
            "/login?switchIdentity=false" None None (Some "http").

Definition entered_cookie : CookieSession :=
  mkCookie (Some "sid-1") None (Some "create_web_id") None None None None.

Definition delete_pod_cookie : CookieSession :=
  mkCookie (Some "sid-1") None (Some "delete_pod") None None None None.

Definition cookie_with_target : CookieSession :=
  mkCookie (Some "sid-0") (Some "http://localhost:4200/profile?tab=pods")
           None None None None None.

Definition cookie_with_broken_grant : CookieSession :=
  mkCookie (Some "sid-1") None None (Some "not json") None None None.

Definition far_future : Locals :=
  mkLocals (Some (mkInfo "sid-1" true (Some "https://pod.example/alice/profile#me")
                         (Some 8640000000001%Z))) None.

End Edge.

(** * Properties *)

(** ** URLSearchParams *)

Lemma searchParams_get_delete_other (n m : string) (l : list (string * string)) :
  String.eqb m n = false ->
  searchParams_get n (searchParams_delete m l) = searchParams_get n l.
Proof.
  intros Hnm. induction l as [|[k v] r IH]; simpl; [reflexivity|].
  destruct (String.eqb k m) eqn:Hkm; simpl.
  - apply String.eqb_eq in Hkm; subst k. rewrite Hnm. exact IH.
  - destruct (String.eqb k n); [reflexivity | exact IH].
Qed.

Lemma searchParams_get_replace_same (n v : string) (l : list (string * string)) :
  searchParams_has n l = true ->
  searchParams_get n (searchParams_replace n v l) = Some v.
Proof.
  unfold searchParams_has.
  induction l as [|[k x] r IH]; simpl; [discriminate|].
  destruct (String.eqb k n) eqn:Hk; simpl; rewrite Hk; auto.
Qed.

Lemma searchParams_get_replace_other (n m v : string) (l : list (string * string)) :
  String.eqb m n = false ->
  searchParams_get n (searchParams_replace m v l) = searchParams_get n l.
Proof.
  intros Hnm. induction l as [|[k x] r IH]; simpl; [reflexivity|].
  destruct (String.eqb k m) eqn:Hkm; simpl.
  - apply String.eqb_eq in Hkm; subst k. rewrite Hnm.
    apply searchParams_get_delete_other; exact Hnm.
  - destruct (String.eqb k n); [reflexivity | exact IH].
Qed.

Lemma searchParams_get_app_absent (n : string) (l l' : list (string * string)) :
  searchParams_has n l = false ->
  searchParams_get n (l ++ l') = searchParams_get n l'.
Proof.
  unfold searchParams_has.
  induction l as [|[k x] r IH]; simpl; [reflexivity|].
  destruct (String.eqb k n); simpl; [discriminate | exact IH].
Qed.

Lemma searchParams_get_app_present (n : string) (l l' : list (string * string)) :
  searchParams_has n l = true ->
  searchParams_get n (l ++ l') = searchParams_get n l.
Proof.
  unfold searchParams_has.
  induction l as [|[k x] r IH]; simpl; [discriminate|].
  destruct (String.eqb k n); simpl; [reflexivity | exact IH].
Qed.

Lemma searchParams_has_get (n : string) (l : list (string * string)) :
  searchParams_has n l = false -> searchParams_get n l = None.
Proof.
  unfold searchParams_has.
  induction l as [|[k x] r IH]; simpl; [reflexivity|].
  destruct (String.eqb k n); simpl; [discriminate | exact IH].
Qed.

(** [get] after [set] of the same name reads the value set. *)
Lemma URL_get_set_same (n v : string) (u : URL) :
  URL_get n (URL_set n v u) = Some v.
Proof.
  unfold URL_get, URL_set, searchParams_set; simpl.
  destruct (searchParams_has n (searchParams u)) eqn:H.
  - apply searchParams_get_replace_same; exact H.
  - rewrite searchParams_get_app_absent by exact H. simpl.
    rewrite String.eqb_refl. reflexivity.
Qed.

(** [set] leaves the parameters of every other name as they were. *)
Lemma URL_get_set_other (n m v : string) (u : URL) :
  String.eqb m n = false ->
  URL_get n (URL_set m v u) = URL_get n u.
Proof.
  intros Hnm. unfold URL_get, URL_set, searchParams_set; simpl.
  destruct (searchParams_has m (searchParams u)) eqn:H.
  - apply searchParams_get_replace_other; exact Hnm.
  - destruct (searchParams_has n (searchParams u)) eqn:Hn.
    + apply searchParams_get_app_present; exact Hn.
    + rewrite searchParams_get_app_absent by exact Hn. simpl.
      rewrite Hnm. symmetry. apply searchParams_has_get; exact Hn.
Qed.

(** ** The reference platform keeps the platform laws *)

Lemma reference_Date_iso_truthy (t : Z) : truthy_string (Reference.Date_iso t) = true.
Proof.
  unfold Reference.Date_iso.
  destruct (Reference.civil_from_days (t / Reference.msPerDay)) as [[y m] d].
  destruct (Reference.print_year y); reflexivity.
Qed.

Lemma reference_laws : PlatformLaws Reference.platform.
Proof.
  split.
  - reflexivity.
  - exact reference_Date_iso_truthy.
  - intros g. reflexivity.
Qed.

(** ** Tactics *)

(** Running a handler symbolically: the monad, the handlers and the
    projections of the request state are unfolded by value, so that the
    state is not copied unevaluated into every continuation. *)
Ltac run_monad :=
  cbv beta iota zeta delta
    [ serve settle handler route world request res_locals
      GET_login GET_logout GET_oidc_redirect POST_access_grant
      GET_session_information project_session project_grant
      project_grant_expiration
      complete_redirect provision_web_id redirect_login_failed
      redirect_login_success oidcService_login login_handler
      frontend_copy_with session_or_TypeError JSON_parse_stored
      try_catch bind get_ctx toISOString new_URL res_json res_redirect
      res_send next respond session_write modify_session modify_globals
      set_locals_session emit lift ret throw
      req_session globals locals trace saved app_session app_globals
      fst snd app ].

(** The answers the hypotheses give for what the handler asks. *)
Ltac answer :=
  simpl in *;
  repeat (match goal with
          | H : ?x = _ |- context [?x] => rewrite H
          end; simpl).

(** Case analysis on what a handler branches on. *)
Ltac branch :=
  match goal with
  | |- context [match ?x with _ => _ end] =>
      lazymatch x with
      | context [match _ with _ => _ end] => fail
      | _ => destruct x eqn:?
      end
  end.

(** ** [GET /session-information] *)

Section SessionProperties.
Context {P : Platform}.

Lemma app_eta (a : App) : mkApp (app_session a) (app_globals a) = a.
Proof. destruct a; reflexivity. Qed.

(** The handler reads: it answers once and leaves the session and the
    globals as they were. *)
Lemma session_information_answers_once (w : World) (req : Request) (l : Locals) (a : App) :
  exists r, serve (mkCall SessionInformationRoute w req l) a = (a, [EvRespond r]).
Proof.
  destruct a as [cs g]. run_monad.
  repeat (branch; simpl); eexists; reflexivity.
Qed.

(** The handler answers with a view whenever the date of the session can
    be printed and the grant stored on the cookie session can be parsed. *)
Lemma session_information_answers_view
  (w : World) (req : Request) (l : Locals) (a : App) :
  session_date_prints l ->
  (forall raw, accessGrant (app_session a) = Some raw ->
               exists g, JSON_parse_grant raw = Ok g) ->
  exists v, serve (mkCall SessionInformationRoute w req l) a = (a, [EvRespond (Json v)]).
Proof.
  destruct a as [cs g]; cbn [app_session app_globals].
  unfold session_date_prints. intros Hd Hg. run_monad.
  destruct (session l) as [s|]; simpl.
  - destruct (new_Date_number (times (info_expirationDate s) 1000)); [|congruence].
    simpl. destruct (accessGrant cs) as [raw|]; simpl;
      [destruct (Hg raw eq_refl) as [g' Hg']; rewrite Hg'|];
      repeat (branch; simpl); eexists; reflexivity.
  - destruct (accessGrant cs) as [raw|]; simpl;
      [destruct (Hg raw eq_refl) as [g' Hg']; rewrite Hg'|];
      repeat (branch; simpl); eexists; reflexivity.
Qed.

(** C6. A request to [GET /session-information] with no prior session (no
    session resolved by the middleware, no access grant and no grant
    expiration on the cookie session) is answered with exactly the object
    [{isLoggedIn: false}]: every optional key is absent. *)
Theorem session_information_without_session
  (w : World) (req : Request) (l : Locals) (a : App) :
  session l = None ->
  truthy (accessGrant (app_session a)) = false ->
  truthy (accessGrantExpirationDate (app_session a)) = false ->
  serve (mkCall SessionInformationRoute w req l) a
  = (a, [EvRespond (Json (mkView false None None None None None))]).
Proof.
  destruct a as [cs g]; cbn [app_session app_globals]. intros Hs Hg He.
  run_monad. rewrite Hs; simpl. rewrite He.
  destruct (accessGrant cs) as [raw|]; simpl in *; [rewrite Hg|]; reflexivity.
Qed.

(** C4, as the code has it. When the middleware resolved no session, the
    view says [isLoggedIn: false] and has no [expirationDate], [webId] or
    [pods]. With a session, [isLoggedIn] is copied and [webId] and [pods]
    are in the view whenever they are there, whatever [isLoggedIn] is. The
    access-grant keys come from the cookie session alone: the expiration is
    in the view exactly when the cookie session holds a truthy one, the id
    only when it holds a grant, whatever [isLoggedIn] is. *)
Theorem session_view_fields
  (w : World) (req : Request) (l : Locals) (a a' : App) (v : SessionInformation) :
  serve (mkCall SessionInformationRoute w req l) a = (a', [EvRespond (Json v)]) ->
  (session l = None ->
     isLoggedIn v = false /\ expirationDate v = None
     /\ webId v = None /\ view_pods v = None)
  /\ (forall s, session l = Some s ->
        isLoggedIn v = info_isLoggedIn s
        /\ webId v = (if truthy (info_webId s) then info_webId s else None)
        /\ view_pods v = pods l)
  /\ view_accessGrantExpirationDate v
     = (if truthy (accessGrantExpirationDate (app_session a))
        then accessGrantExpirationDate (app_session a) else None)
  /\ (accessGrantId v <> None -> truthy (accessGrant (app_session a)) = true).
Proof.
  destruct a as [cs g]; cbn [app_session app_globals].
  run_monad.
  repeat (branch; simpl); intros H; inversion H; subst; clear H; simpl;
    (split; [intros Hs | split; [intros s' Hs' | split; [|intros Hid]]]);
    try discriminate; try congruence;
    try (inversion Hs'; subst; clear Hs'); simpl;
    repeat split; try reflexivity; try congruence.
  all: match goal with H : truthy (info_webId _) = _ |- _ => rewrite H end;
    reflexivity.
Qed.

(** C5, on a session without [expirationDate]. The date of the view is
    computed for every resolved session, and [toISOString] throws on the
    Invalid Date that [undefined * 1000] makes: the request ends in the
    error handler and no view is sent. *)
Theorem session_information_throws_without_expiration
  (w : World) (req : Request) (a : App)
  (sid : string) (loggedIn : bool) (wid : option string) (p : option (list string)) :
  serve (mkCall SessionInformationRoute w req
                (mkLocals (Some (mkInfo sid loggedIn wid None)) p)) a
  = (a, [EvRespond (NextError (RangeError "Invalid time value"))]).
Proof.
  destruct a as [cs g]. run_monad. reflexivity.
Qed.

End SessionProperties.

(** C6 on the reference platform: the first request of a browser. *)
Lemma session_information_without_session_run :
  serve (P := Reference.platform)
        (mkCall SessionInformationRoute Sample.down Sample.plain_request Sample.no_session)
        Sample.fresh_app
  = (Sample.fresh_app, [EvRespond (Json (mkView false None None None None None))]).
Proof.
  apply (session_information_without_session (P := Reference.platform)
           Sample.down Sample.plain_request Sample.no_session Sample.fresh_app);
    reflexivity.
Defined.

(** C4 fails as stated: the Solid session is gone, the cookie session still
    holds a grant, and the view says [isLoggedIn: false] next to the grant's
    id and expiration. *)
Lemma logged_out_view_reports_grant :
  serve (P := Reference.platform)
        (mkCall SessionInformationRoute Sample.down Sample.plain_request Sample.no_session)
        (mkApp Sample.cookie_with_grant Sample.frontend)
  = (mkApp Sample.cookie_with_grant Sample.frontend,
     [EvRespond (Json (mkView false None (Some "https://vc.example/grant/42")
                              (Some "2030-01-01T00:00:00.000Z") None None))]).
Proof. vm_compute. reflexivity. Qed.

(** The amended C4 at that request. *)
Lemma session_view_fields_run :
  let v := mkView false None (Some "https://vc.example/grant/42")
                  (Some "2030-01-01T00:00:00.000Z") None None in
  (isLoggedIn v = false /\ expirationDate v = None
   /\ webId v = None /\ view_pods v = None)
  /\ view_accessGrantExpirationDate v = Some "2030-01-01T00:00:00.000Z".
Proof.
  pose proof (session_view_fields (P := Reference.platform)
                Sample.down Sample.plain_request Sample.no_session
                (mkApp Sample.cookie_with_grant Sample.frontend)
                (mkApp Sample.cookie_with_grant Sample.frontend)
                (mkView false None (Some "https://vc.example/grant/42")
                        (Some "2030-01-01T00:00:00.000Z") None None)
                eq_refl) as [Hnone [_ [Hexp _]]].
  split; [exact (Hnone eq_refl) | exact Hexp].
Defined.

(** ** [/logout] *)

Section LogoutProperties.
Context {P : Platform}.

(** The trace of [GET /logout] on a resolved session. *)
Lemma logout_trace
  (w : World) (req : Request) (l : Locals) (a : App) (s : ISessionInfo) :
  session l = Some s ->
  serve (mkCall Logout w req l) a
  = match session_logout w s with
    | Ok _ =>
        (mkApp (with_workaroundActive None (with_locale None (with_pods None
                  (with_accessGrantExpirationDate None
                     (with_accessGrant None (app_session a))))))
               (app_globals a),
         [ EvLogout;
           EvSessionWrite "accessGrant" None;
           EvSessionWrite "accessGrantExpirationDate" None;
           EvSessionWrite "pods" None;
           EvSessionWrite "locale" None;
           EvSessionWrite "workaroundActive" None;
           EvRespond (Redirect (URL_href (URL_set "logout" "success"
                                            (frontendUrl (app_globals a))))) ])
    | Throw _ =>
        (a, [ EvLogout;
              EvRespond (Redirect (URL_href (URL_set "logout" "error"
                                               (frontendUrl (app_globals a))))) ])
    end.
Proof.
  destruct a as [cs g]; cbn [app_session app_globals]. intros Hs.
  run_monad. rewrite Hs; simpl.
  destruct (session_logout w s); reflexivity.
Qed.

(** Were the handler reached without a session, reading [session.info]
    would throw inside the [try]: the answer is the [logout=error]
    redirect all the same. *)
Lemma logout_without_session (w : World) (req : Request) (l : Locals) (a : App) :
  session l = None ->
  serve (mkCall Logout w req l) a
  = (a, [ EvRespond (Redirect (URL_href (URL_set "logout" "error"
                                           (frontendUrl (app_globals a))))) ]).
Proof.
  destruct a as [cs g]; cbn [app_session app_globals]. intros Hs.
  run_monad. rewrite Hs; reflexivity.
Qed.

(** C7. On a resolved session [GET /logout] answers with exactly one
    redirect to the front-end URL: [logout=success] after the session
    fields were cleared when the invalidation succeeds, [logout=error]
    when it fails. The failure never reaches the error handler, and the
    global front-end URL is left as it was. *)
Theorem logout_always_redirects
  (w : World) (req : Request) (l : Locals) (a : App) (s : ISessionInfo) :
  session l = Some s ->
  snd (serve (mkCall Logout w req l) a)
  = match session_logout w s with
    | Ok _ =>
        [ EvLogout;
          EvSessionWrite "accessGrant" None;
          EvSessionWrite "accessGrantExpirationDate" None;
          EvSessionWrite "pods" None;
          EvSessionWrite "locale" None;
          EvSessionWrite "workaroundActive" None;
          EvRespond (Redirect (URL_href (URL_set "logout" "success"
                                           (frontendUrl (app_globals a))))) ]
    | Throw _ =>
        [ EvLogout;
          EvRespond (Redirect (URL_href (URL_set "logout" "error"
                                           (frontendUrl (app_globals a))))) ]
    end
  /\ app_globals (fst (serve (mkCall Logout w req l) a)) = app_globals a.
Proof.
  intros Hs. rewrite (logout_trace w req l a s Hs).
  destruct (session_logout w s); split; reflexivity.
Qed.

End LogoutProperties.

(** C7 on the reference platform: the invalidation fails and the browser
    is sent to the front end with [logout=error]. *)
Lemma logout_always_redirects_run :
  snd (serve (P := Reference.platform)
             (mkCall Logout Sample.down Sample.plain_request Sample.logged_in)
             Sample.fresh_app)
  = [EvLogout; EvRespond (Redirect "http://localhost:4200/?logout=error")].
Proof.
  exact (proj1 (logout_always_redirects (P := Reference.platform)
                  Sample.down Sample.plain_request Sample.logged_in
                  Sample.fresh_app Sample.logged_in_info eq_refl)).
Defined.

(** ** [/oidc-redirect]: entering the workaround *)

Section RedirectProperties.
Context {P : Platform}.

Lemma truthy_false_not_create (x : option string) :
  truthy x = false -> option_string_eqb x "create_web_id" = false.
Proof. destruct x as [[|c s]|]; simpl; congruence. Qed.

(** C1. The redirect is completed with [workaroundActive] unset and the
    Inrupt session throws [e].
    - When the message of [e] starts with the [webid]-claim text, the
      handler writes [create_web_id] to [workaroundActive] and calls
      [oidcService.login] again with the session; with the login URL it is
      handed, the answer is the redirect to that URL with the [rrn] scope
      added (and no login hint), and nothing reaches the error handler.
    - Every other [e] goes to the error handler as it is, and the session
      and the globals are left as they were. *)
Theorem missing_webid_claim_enters_workaround
  (w : World) (req : Request) (l : Locals) (a : App) (s : ISessionInfo) (e : JsError) :
  truthy (workaroundActive (app_session a)) = false ->
  session l = Some s ->
  handleIncomingRedirect w (fullUrl req) s = Throw e ->
  (startsWith (err_message e) webid_claim_message = true ->
     workaroundActive (app_session (fst (serve (mkCall OidcRedirect w req l) a)))
     = Some "create_web_id"
     /\ forall url u,
          oidc_login w (Some s) = Ok url ->
          URL_parse url = Some u ->
          snd (serve (mkCall OidcRedirect w req l) a)
          = [ EvHandleIncomingRedirect (fullUrl req);
              EvSessionWrite "workaroundActive" (Some "create_web_id");
              EvLogin (Some s);
              EvRespond (Redirect (URL_href (add_rrn_scope u))) ])
  /\ (startsWith (err_message e) webid_claim_message = false ->
      serve (mkCall OidcRedirect w req l) a
      = (a, [ EvHandleIncomingRedirect (fullUrl req); EvRespond (NextError e) ])).
Proof.
  destruct a as [cs g]; cbn [app_session app_globals]. intros Hw Hs He.
  split; intros Hm.
  - split.
    + run_monad. answer.
      destruct (oidc_login w (Some s)) as [url|e']; simpl; [|reflexivity].
      destruct (URL_parse url); reflexivity.
    + intros url u Hl Hu. run_monad. answer. reflexivity.
  - run_monad. answer. reflexivity.
Qed.

(** When the login called again fails, its own error is what the error
    handler gets; the workaround stays entered. *)
Lemma workaround_login_failure
  (w : World) (req : Request) (l : Locals) (a : App) (s : ISessionInfo) (e e' : JsError) :
  truthy (workaroundActive (app_session a)) = false ->
  session l = Some s ->
  handleIncomingRedirect w (fullUrl req) s = Throw e ->
  startsWith (err_message e) webid_claim_message = true ->
  oidc_login w (Some s) = Throw e' ->
  snd (serve (mkCall OidcRedirect w req l) a)
  = [ EvHandleIncomingRedirect (fullUrl req);
      EvSessionWrite "workaroundActive" (Some "create_web_id");
      EvLogin (Some s);
      EvRespond (NextError e') ].
Proof.
  destruct a as [cs g]; cbn [app_session app_globals]. intros Hw Hs He Hm Hl.
  run_monad. answer. reflexivity.
Qed.

(** ** [/oidc-redirect]: the provisioning leg *)

(** C2. The redirect is completed with [workaroundActive] equal to
    [create_web_id]. The handler never calls [handleIncomingRedirect]. When
    each step succeeds it does, in this order: read the record stored under
    the session's [solidSid]; exchange the code and state of the request
    with the [codeVerifier] of that record; provision the WebID with the
    [id_token] of the answer; delete [workaroundActive]; call
    [oidcService.login] again and redirect to its URL with the [rrn] scope
    and the identity-switch login hint. *)
Theorem provisioning_leg_in_order
  (w : World) (req : Request) (l : Locals) (a : App) :
  workaroundActive (app_session a) = Some "create_web_id" ->
  (forall url, ~ In (EvHandleIncomingRedirect url)
                    (snd (serve (mkCall OidcRedirect w req l) a)))
  /\ forall raw record data url u,
       let key := ("solidClientAuthenticationUser:"
                   ++ interpolate (solidSid (app_session a)))%string in
       storage_get w key = Ok (Some raw) ->
       JSON_parse_oidc raw = Ok record ->
       oidc_getToken w (query_code req) (codeVerifier record) (query_state req) = Ok data ->
       athumi_provisionWebId w (id_token data) = Ok tt ->
       oidc_login w (session l) = Ok url ->
       URL_parse url = Some u ->
       let loginUrl := URL_set "login_hint" switch_identity_hint (add_rrn_scope u) in
       serve (mkCall OidcRedirect w req l) a
       = (mkApp (with_workaroundActive None (app_session a)) (app_globals a),
          [ EvStorageGet key;
            EvGetToken (query_code req) (codeVerifier record) (query_state req);
            EvProvisionWebId (id_token data);
            EvSessionWrite "workaroundActive" None;
            EvLogin (session l);
            EvRespond (Redirect (URL_href loginUrl)) ])
       /\ URL_get "login_hint" loginUrl = Some switch_identity_hint.
Proof.
  destruct a as [cs g]; cbn [app_session app_globals]. intros Hw. split.
  - intros fu. run_monad. answer.
    repeat (branch; simpl); intuition discriminate.
  - intros raw record data url u Hg Hp Ht Hpr Hl Hu. split.
    + run_monad. answer. reflexivity.
    + apply URL_get_set_same.
Qed.

End RedirectProperties.

(** C1 on the reference platform: a first-time user comes back from the
    provider, and an unrelated failure goes to the error handler. *)
Lemma missing_webid_claim_enters_workaround_run :
  snd (serve (P := Reference.platform)
             (mkCall OidcRedirect Sample.first_time_user Sample.redirect_request Sample.pending)
             Sample.fresh_app)
  = [ EvHandleIncomingRedirect "http://localhost:3001/oidc-redirect?code=c0de&state=st8";
      EvSessionWrite "workaroundActive" (Some "create_web_id");
      EvLogin (Some Sample.pending_info);
      EvRespond (Redirect
        "https://idp.example/op/auth?client_id=demo&scope=openid+profile+rrn") ]
  /\ serve (P := Reference.platform)
           (mkCall OidcRedirect Sample.down Sample.redirect_request Sample.pending)
           Sample.fresh_app
     = (Sample.fresh_app,
        [ EvHandleIncomingRedirect "http://localhost:3001/oidc-redirect?code=c0de&state=st8";
          EvRespond (NextError (Sample.error "redirect failed")) ]).
Proof.
  split.
  - exact (proj2 (proj1 (missing_webid_claim_enters_workaround (P := Reference.platform)
             Sample.first_time_user Sample.redirect_request Sample.pending
             Sample.fresh_app Sample.pending_info _ eq_refl eq_refl eq_refl) eq_refl)
             Sample.login_url _ eq_refl eq_refl).
  - exact (proj2 (missing_webid_claim_enters_workaround (P := Reference.platform)
             Sample.down Sample.redirect_request Sample.pending
             Sample.fresh_app Sample.pending_info _ eq_refl eq_refl eq_refl) eq_refl).
Defined.

(** C2 on the reference platform: the second pass of the first-time user. *)
Lemma provisioning_leg_in_order_run :
  serve (P := Reference.platform)
        (mkCall OidcRedirect Sample.first_time_user Sample.redirect_request Sample.pending)
        (mkApp (mkCookie (Some "sid-1") None (Some "create_web_id") None None None None)
               Sample.frontend)
  = (mkApp (mkCookie (Some "sid-1") None None None None None None) Sample.frontend,
     [ EvStorageGet "solidClientAuthenticationUser:sid-1";
       EvGetToken (Some "c0de") (Some "pkce-verifier-1") (Some "st8");
       EvProvisionWebId (Some "id-token-1");
       EvSessionWrite "workaroundActive" None;
       EvLogin (Some Sample.pending_info);
       EvRespond (Redirect
         "https://idp.example/op/auth?client_id=demo&scope=openid+profile+rrn&login_hint=eyJzd2l0Y2hfaWQiOiB0cnVlfQ%3D%3D") ]).
Proof.
  exact (proj1 (proj2 (provisioning_leg_in_order (P := Reference.platform)
           Sample.first_time_user Sample.redirect_request Sample.pending
           (mkApp (mkCookie (Some "sid-1") None (Some "create_web_id") None None None None)
                  Sample.frontend) eq_refl)
           Sample.stored_record _ _ Sample.login_url _
           eq_refl eq_refl eq_refl eq_refl eq_refl eq_refl)).
Defined.

(** ** [/login] and the return target *)

Section ReturnTargetProperties.
Context {P : Platform} {L : PlatformLaws P}.

Lemma URL_parse_truthy (s : string) (u : URL) :
  URL_parse s = Some u -> truthy_string s = true.
Proof.
  destruct s; [|reflexivity]. rewrite URL_parse_empty. discriminate.
Qed.

(** C8, on the clearing of the return target. The redirect is completed
    with [workaroundActive] unset, and the Inrupt session comes out of it
    logged in.
    - After [GET /login?redirectUrl=U] with [U] a URL (one that [new URL]
      accepts, and reads back from its own [href]), the session holds the
      [href] of [U], and the redirect completion answers with the redirect
      to [U] with [login=success] set.
    - The handler deletes [req.session.redirectUrl] after [res.redirect],
      when the session has been stored: the session that outlives the
      request still holds the target, the application is exactly as
      before the completion, and the next successful completion redirects
      to [U] again.
    - With no return target on the session, the answer is the redirect to
      the front-end URL with [login=success] set. *)
Theorem login_return_target_outlives_redirect
  (w1 w2 : World) (req1 req2 : Request) (l1 l2 : Locals) (a : App)
  (s s' : ISessionInfo) :
  truthy (workaroundActive (app_session a)) = false ->
  session l2 = Some s ->
  handleIncomingRedirect w2 (fullUrl req2) s = Ok s' ->
  info_isLoggedIn s' = true ->
  (forall U u,
     query_redirectUrl req1 = Some U ->
     URL_parse U = Some u ->
     URL_parse (URL_href u) = Some u ->
     let a1 := fst (serve (mkCall Login w1 req1 l1) a) in
     let a2 := fst (serve (mkCall OidcRedirect w2 req2 l2) a1) in
     redirectUrl (app_session a1) = Some (URL_href u)
     /\ snd (serve (mkCall OidcRedirect w2 req2 l2) a1)
        = [ EvHandleIncomingRedirect (fullUrl req2);
            EvRespond (Redirect (URL_href (URL_set "login" "success" u)));
            EvSessionWrite "redirectUrl" None ]
     /\ redirectUrl (app_session a2) = Some (URL_href u)
     /\ a2 = a1
     /\ responses (snd (serve (mkCall OidcRedirect w2 req2 l2) a2))
        = [Redirect (URL_href (URL_set "login" "success" u))])
  /\ (truthy (redirectUrl (app_session a)) = false ->
      snd (serve (mkCall OidcRedirect w2 req2 l2) a)
      = [ EvHandleIncomingRedirect (fullUrl req2);
          EvRespond (Redirect (URL_href (URL_set "login" "success"
                                           (frontendUrl (app_globals a))))) ]).
Proof.
  destruct a as [cs g]; cbn [app_session app_globals]. intros Hw Hs Hr Hl. split.
  - intros U u HU Hu Hround.
    pose proof (URL_parse_truthy _ _ Hu) as HtU.
    pose proof (URL_parse_truthy _ _ Hround) as Hth.
    assert (Hlogin :
      fst (serve (mkCall Login w1 req1 l1) (mkApp cs g))
      = mkApp (with_redirectUrl (Some (URL_href u))
                 (with_solidSid (Some (info_sessionId (new_Session w1))) cs)) g).
    { run_monad. answer.
      destruct (oidc_login w1 (Some (new_Session w1))) as [url|e]; simpl;
        [destruct (URL_parse url); simpl|]; reflexivity. }
    assert (Hdone :
      serve (mkCall OidcRedirect w2 req2 l2)
            (mkApp (with_redirectUrl (Some (URL_href u))
                      (with_solidSid (Some (info_sessionId (new_Session w1))) cs)) g)
      = (mkApp (with_redirectUrl (Some (URL_href u))
                  (with_solidSid (Some (info_sessionId (new_Session w1))) cs)) g,
         [ EvHandleIncomingRedirect (fullUrl req2);
           EvRespond (Redirect (URL_href (URL_set "login" "success" u)));
           EvSessionWrite "redirectUrl" None ])).
    { run_monad. answer. reflexivity. }
    cbv zeta. rewrite Hlogin. clear Hlogin. rewrite Hdone. cbn [fst snd].
    rewrite Hdone. cbn [snd responses].
    repeat split.
  - intros Hnone. run_monad. answer.
    destruct (redirectUrl cs) as [r|]; simpl in *; [rewrite Hnone|]; reflexivity.
Qed.

End ReturnTargetProperties.

(** C8 on the reference platform: the user asks to come back to a page of
    the front end; after the redirect to it the stored session still
    holds the page. *)
Lemma login_return_target_outlives_redirect_run :
  let a1 := fst (serve (P := Reference.platform)
                   (mkCall Login Sample.returning_user
                           (Sample.login_request (Some "http://localhost:4200/profile?tab=pods"))
                           Sample.no_session)
                   Sample.fresh_app) in
  snd (serve (P := Reference.platform)
         (mkCall OidcRedirect Sample.returning_user Sample.redirect_request Sample.pending)
         a1)
  = [ EvHandleIncomingRedirect "http://localhost:3001/oidc-redirect?code=c0de&state=st8";
      EvRespond (Redirect "http://localhost:4200/profile?tab=pods&login=success");
      EvSessionWrite "redirectUrl" None ]
  /\ redirectUrl (app_session (fst (serve (P := Reference.platform)
        (mkCall OidcRedirect Sample.returning_user Sample.redirect_request Sample.pending)
        a1)))
     = Some "http://localhost:4200/profile?tab=pods".
Proof.
  pose proof (proj1
    (login_return_target_outlives_redirect (P := Reference.platform) (L := reference_laws)
       Sample.returning_user Sample.returning_user
       (Sample.login_request (Some "http://localhost:4200/profile?tab=pods"))
       Sample.redirect_request Sample.no_session Sample.pending Sample.fresh_app
       Sample.pending_info Sample.logged_in_info eq_refl eq_refl eq_refl eq_refl)
    "http://localhost:4200/profile?tab=pods"
    (mkURL "http://localhost:4200/profile" [("tab", "pods")])
    eq_refl eq_refl eq_refl) as [_ [Htrace [Hkept _]]].
  split; [exact Htrace | exact Hkept].
Defined.

(** The failing run of C8: a login with a return target, its completion,
    then a login without one and its completion. The second completion is
    sent to the target of the first login, not to the front-end URL. *)
Lemma stale_return_target_run :
  responses (snd (serve_all (P := Reference.platform)
    [ mkCall Login Sample.returning_user
             (Sample.login_request (Some "http://localhost:4200/profile?tab=pods"))
             Sample.no_session;
      mkCall OidcRedirect Sample.returning_user Sample.redirect_request Sample.pending;
      mkCall Login Sample.returning_user (Sample.login_request None) Sample.no_session;
      mkCall OidcRedirect Sample.returning_user Sample.redirect_request Sample.pending ]
    Sample.fresh_app))
  = [ Redirect "https://idp.example/op/auth?client_id=demo&scope=openid+profile+rrn";
      Redirect "http://localhost:4200/profile?tab=pods&login=success";
      Redirect "https://idp.example/op/auth?client_id=demo&scope=openid+profile+rrn";
      Redirect "http://localhost:4200/profile?tab=pods&login=success" ].
Proof. vm_compute. reflexivity. Qed.

(** ** The shared front-end URL *)

Section FrontendUrlProperties.
Context {P : Platform}.

(** One handler branch writes [globalThis.frontendUrl]: a request either
    leaves the globals as they were, or it is a redirect completion that
    set [login=failed] on the front-end URL, and its trace says so. *)
Lemma globals_written_only_on_failed_login (c : Call) (a : App) :
  app_globals (fst (serve c a)) = app_globals a
  \/ (route c = OidcRedirect
      /\ In (EvFrontendUrlSet "login" "failed") (snd (serve c a))
      /\ frontendUrl (app_globals (fst (serve c a)))
         = URL_set "login" "failed" (frontendUrl (app_globals a))).
Proof.
  destruct a as [cs g], c as [r w req l]; destruct r; run_monad.
  - left. repeat (branch; simpl); reflexivity.
  - left. repeat (branch; simpl); reflexivity.
  - repeat (branch; simpl);
      first [ left; reflexivity
            | right; split; [reflexivity | split; [simpl; tauto | reflexivity]] ].
  - left. repeat (branch; simpl); reflexivity.
  - left. repeat (branch; simpl); reflexivity.
Qed.

(** Once [login=failed] is on the global front-end URL, no later request
    takes it off. *)
Lemma login_failed_is_kept (cs : list Call) (a : App) :
  URL_get "login" (frontendUrl (app_globals a)) = Some "failed" ->
  URL_get "login" (frontendUrl (app_globals (fst (serve_all cs a)))) = Some "failed".
Proof.
  revert a. induction cs as [|c rest IH]; intros a Ha; [exact Ha|].
  cbn [serve_all].
  pose proof (globals_written_only_on_failed_login c a) as Hstep.
  destruct (serve c a) as [a1 t1].
  specialize (IH a1).
  destruct (serve_all rest a1) as [a2 t2].
  cbn [fst snd] in *. apply IH.
  destruct Hstep as [Hsame | [_ [_ Hset]]].
  - rewrite Hsame. exact Ha.
  - rewrite Hset. apply URL_get_set_same.
Qed.

(** C10. A redirect completion that succeeds without logging the session
    in sets [login=failed] on [globalThis.frontendUrl] itself and redirects
    to it. Every other branch of every handler leaves the global as it was
    (they set their parameter on a copy). So after one such failure,
    whatever requests follow, the global still carries [login=failed], and
    so does every copy [new URL(globalThis.frontendUrl)] made of it; the
    [/logout] redirects of later requests are sent with it. *)
Theorem failed_login_marks_shared_frontend_url
  (w : World) (req : Request) (l : Locals) (a : App) (s s' : ISessionInfo) :
  truthy (workaroundActive (app_session a)) = false ->
  session l = Some s ->
  handleIncomingRedirect w (fullUrl req) s = Ok s' ->
  info_isLoggedIn s' = false ->
  let a1 := fst (serve (mkCall OidcRedirect w req l) a) in
  frontendUrl (app_globals a1) = URL_set "login" "failed" (frontendUrl (app_globals a))
  /\ snd (serve (mkCall OidcRedirect w req l) a)
     = [ EvHandleIncomingRedirect (fullUrl req);
         EvFrontendUrlSet "login" "failed";
         EvRespond (Redirect (URL_href (frontendUrl (app_globals a1)))) ]
  /\ (forall c a0,
        app_globals (fst (serve c a0)) = app_globals a0
        \/ In (EvFrontendUrlSet "login" "failed") (snd (serve c a0)))
  /\ (forall later : list Call,
        let a2 := fst (serve_all later a1) in
        URL_get "login" (URL_copy (frontendUrl (app_globals a2))) = Some "failed"
        /\ forall w' req' l' s0,
             session l' = Some s0 ->
             exists u,
               responses (snd (serve (mkCall Logout w' req' l') a2))
               = [Redirect (URL_href u)]
               /\ URL_get "login" u = Some "failed").
Proof.
  destruct a as [cs g]; cbn [app_session app_globals]. intros Hw Hs Hr Hl.
  assert (H1 : serve (mkCall OidcRedirect w req l) (mkApp cs g)
               = (mkApp cs (mkGlobals (URL_set "login" "failed" (frontendUrl g))),
                  [ EvHandleIncomingRedirect (fullUrl req);
                    EvFrontendUrlSet "login" "failed";
                    EvRespond (Redirect (URL_href (URL_set "login" "failed"
                                                     (frontendUrl g)))) ])).
  { run_monad. answer. reflexivity. }
  cbv zeta. rewrite H1. cbn [fst snd app_globals frontendUrl].
  split; [reflexivity|]. split; [reflexivity|]. split.
  - intros c a0.
    destruct (globals_written_only_on_failed_login c a0) as [H | [_ [H _]]]; auto.
  - intros later.
    assert (Hkept : URL_get "login"
              (frontendUrl (app_globals (fst (serve_all later
                 (mkApp cs (mkGlobals (URL_set "login" "failed" (frontendUrl g))))))))
              = Some "failed").
    { apply login_failed_is_kept. apply URL_get_set_same. }
    split; [exact Hkept|].
    intros w' req' l' s0 Hs0.
    rewrite (logout_trace w' req' l' _ s0 Hs0).
    destruct (session_logout w' s0); cbn [snd responses]; eexists;
      (split; [reflexivity|]);
      rewrite URL_get_set_other by reflexivity; exact Hkept.
Qed.

(** The default success redirect is built on a copy of the marked global
    too, but it sets [login] itself: what it sends says [login=success]. *)
Lemma success_redirect_overwrites_failed (u : URL) :
  URL_get "login" (URL_set "login" "success" (URL_copy (URL_set "login" "failed" u)))
  = Some "success".
Proof. apply URL_get_set_same. Qed.

End FrontendUrlProperties.

(** C10 on the reference platform: one rejected login, then the logout of
    a user who is logged in. *)
Lemma failed_login_marks_shared_frontend_url_run :
  snd (serve (P := Reference.platform)
         (mkCall Logout Sample.returning_user Sample.plain_request Sample.logged_in)
         (fst (serve (P := Reference.platform)
                 (mkCall OidcRedirect Sample.rejected_user Sample.redirect_request
                         Sample.pending)
                 Sample.fresh_app)))
  = [ EvLogout;
      EvSessionWrite "accessGrant" None;
      EvSessionWrite "accessGrantExpirationDate" None;
      EvSessionWrite "pods" None;
      EvSessionWrite "locale" None;
      EvSessionWrite "workaroundActive" None;
      EvRespond (Redirect "http://localhost:4200/?login=failed&logout=success") ]
  /\ URL_get "login"
       (frontendUrl (app_globals (fst (serve (P := Reference.platform)
          (mkCall OidcRedirect Sample.rejected_user Sample.redirect_request Sample.pending)
          Sample.fresh_app))))
     = Some "failed".
Proof.
  split.
  - vm_compute. reflexivity.
  - exact (proj1 (proj2 (proj2 (proj2
      (failed_login_marks_shared_frontend_url (P := Reference.platform)
         Sample.rejected_user Sample.redirect_request Sample.pending Sample.fresh_app
         Sample.pending_info Sample.pending_info eq_refl eq_refl eq_refl eq_refl))) [])).
Defined.

(** ** [POST /access-grant], then [GET /session-information] *)

Section AccessGrantProperties.
Context {P : Platform} {L : PlatformLaws P}.

(** C9. The grant service resolves the id of the request to a grant [G]
    with an id and an expiration date that [new Date] reads as the time
    [t], and [JSON.parse] reads [G] back from its [JSON.stringify].
    [POST /access-grant] stores the JSON of [G] and the ISO print of [t] on
    the session; the view of a following [GET /session-information]
    carries the id of [G] as [accessGrantId] and the ISO print of [t] as
    [accessGrantExpirationDate]. *)
Theorem access_grant_store_then_project
  (w1 w2 : World) (req1 req2 : Request) (l1 l2 : Locals) (a : App)
  (G : AccessGrant) (i d : string) (t : Z) :
  vc_fetchAccessGrant w1 (body_accessGrantId req1) (correlationId req1) = Ok G ->
  grant_id G = Some i ->
  truthy_string i = true ->
  grant_expirationDate G = Some d ->
  Date_parse d = Some t ->
  JSON_parse_grant (JSON_stringify_grant G) = Ok G ->
  session_date_prints l2 ->
  let a1 := fst (serve (mkCall AccessGrantRoute w1 req1 l1) a) in
  snd (serve (mkCall AccessGrantRoute w1 req1 l1) a)
  = [ EvFetchAccessGrant (body_accessGrantId req1) (correlationId req1);
      EvSessionWrite "accessGrant" (Some (JSON_stringify_grant G));
      EvSessionWrite "accessGrantExpirationDate" (Some (Date_iso t));
      EvRespond (Send 200 "Access grant set on session") ]
  /\ exists v,
       snd (serve (mkCall SessionInformationRoute w2 req2 l2) a1) = [EvRespond (Json v)]
       /\ accessGrantId v = Some i
       /\ view_accessGrantExpirationDate v = Some (Date_iso t).
Proof.
  destruct a as [cs g]; cbn [app_session app_globals]. intros Hf Hi Hti Hd Hp Hj Hl2.
  assert (H1 : serve (mkCall AccessGrantRoute w1 req1 l1) (mkApp cs g)
               = (mkApp (with_accessGrantExpirationDate (Some (Date_iso t))
                           (with_accessGrant (Some (JSON_stringify_grant G)) cs)) g,
                  [ EvFetchAccessGrant (body_accessGrantId req1) (correlationId req1);
                    EvSessionWrite "accessGrant" (Some (JSON_stringify_grant G));
                    EvSessionWrite "accessGrantExpirationDate" (Some (Date_iso t));
                    EvRespond (Send 200 "Access grant set on session") ])).
  { run_monad. unfold new_Date_string. answer. reflexivity. }
  cbv zeta. rewrite H1. cbn [fst snd]. split; [reflexivity|]. clear H1.
  pose proof (JSON_stringify_truthy G) as HJ.
  pose proof (Date_iso_truthy t) as HD.
  unfold session_date_prints in Hl2.
  run_monad. answer.
  destruct (session l2) as [s|]; simpl.
  - destruct (new_Date_number (times (info_expirationDate s) 1000)); [|congruence].
    simpl. eexists; repeat split; reflexivity.
  - eexists; repeat split; reflexivity.
Qed.

End AccessGrantProperties.

(** C9 on the reference platform. *)
Lemma access_grant_store_then_project_run :
  exists v,
    snd (serve (P := Reference.platform)
           (mkCall SessionInformationRoute Sample.returning_user Sample.plain_request
                   Sample.logged_in)
           (fst (serve (P := Reference.platform)
                   (mkCall AccessGrantRoute Sample.returning_user Sample.grant_request
                           Sample.logged_in)
                   Sample.fresh_app)))
    = [EvRespond (Json v)]
    /\ accessGrantId v = Some "https://vc.example/grant/42"
    /\ view_accessGrantExpirationDate v = Some "2030-01-01T00:00:00.000Z".
Proof.
  exact (proj2 (access_grant_store_then_project
                  (P := Reference.platform) (L := reference_laws)
                  Sample.returning_user Sample.returning_user
                  Sample.grant_request Sample.plain_request
                  Sample.logged_in Sample.logged_in Sample.fresh_app
                  Sample.grant "https://vc.example/grant/42" "2030-01-01T00:00:00.000Z"
                  1893456000000%Z
                  eq_refl eq_refl eq_refl eq_refl eq_refl eq_refl
                  ltac:(vm_compute; discriminate))).
Defined.

(** The view of that run. *)
Lemma access_grant_view_example :
  snd (serve (P := Reference.platform)
         (mkCall SessionInformationRoute Sample.returning_user Sample.plain_request
                 Sample.logged_in)
         (fst (serve (P := Reference.platform)
                 (mkCall AccessGrantRoute Sample.returning_user Sample.grant_request
                         Sample.logged_in)
                 Sample.fresh_app)))
  = [ EvRespond (Json (mkView true (Some "2023-11-14T22:13:20.000Z")
                              (Some "https://vc.example/grant/42")
                              (Some "2030-01-01T00:00:00.000Z")
                              (Some "https://pod.example/alice/profile#me")
                              (Some ["https://pod.example/alice/"]))) ].
Proof. vm_compute. reflexivity. Qed.

(** ** The workaround over a sequence of redirect completions *)

Section WorkaroundProperties.
Context {P : Platform}.

Lemma count_app (p : Event -> bool) (t1 t2 : list Event) :
  count p (t1 ++ t2) = count p t1 + count p t2.
Proof. unfold count. rewrite filter_app, length_app. reflexivity. Qed.

(** A redirect completion with the workaround not entered calls neither
    the token exchange nor the provisioning, and either leaves
    [workaroundActive] as it was or enters the workaround and calls the
    login once. *)
Lemma step_from_unset (w : World) (req : Request) (l : Locals) (a : App) :
  truthy (workaroundActive (app_session a)) = false ->
  let a' := fst (serve (mkCall OidcRedirect w req l) a) in
  let t := snd (serve (mkCall OidcRedirect w req l) a) in
  count is_workaround_clear t = 0
  /\ count is_provisioning t = 0
  /\ count is_token_exchange t = 0
  /\ ((workaroundActive (app_session a') = workaroundActive (app_session a)
       /\ count is_workaround_entry t = 0 /\ count is_login t = 0)
      \/ (workaroundActive (app_session a') = Some "create_web_id"
          /\ count is_workaround_entry t = 1 /\ count is_login t = 1)).
Proof.
  destruct a as [cs g]; cbn [app_session app_globals]. intros Hw.
  run_monad. rewrite Hw; simpl.
  repeat (branch; simpl);
    repeat split; first [ left; repeat split; reflexivity
                        | right; repeat split; reflexivity ].
Qed.

(** A redirect completion with the workaround entered calls neither the
    redirect completion of the session nor enters the workaround again. It
    leaves the workaround entered, or it clears it after one token exchange
    and one provisioning and calls the login once. *)
Lemma step_from_entered (w : World) (req : Request) (l : Locals) (a : App) :
  workaroundActive (app_session a) = Some "create_web_id" ->
  let a' := fst (serve (mkCall OidcRedirect w req l) a) in
  let t := snd (serve (mkCall OidcRedirect w req l) a) in
  count is_workaround_entry t = 0
  /\ count is_redirect_completion t = 0
  /\ ((workaroundActive (app_session a') = Some "create_web_id"
       /\ count is_workaround_clear t = 0 /\ count is_login t = 0
       /\ count is_provisioning t <= count is_token_exchange t)
      \/ (workaroundActive (app_session a') = None
          /\ count is_workaround_clear t = 1 /\ count is_login t = 1
          /\ count is_provisioning t = 1 /\ count is_token_exchange t = 1)).
Proof.
  destruct a as [cs g]; cbn [app_session app_globals]. intros Hw.
  run_monad. rewrite Hw; simpl.
  repeat (branch; simpl);
    repeat split;
    first [ left; repeat split;
            first [reflexivity | exact Hw | unfold count; simpl; lia]
          | right; repeat split; reflexivity ].
Qed.

Lemma owed_unset (a : App) :
  truthy (workaroundActive (app_session a)) = false -> owed a = 0.
Proof.
  unfold owed, workaround_entered. intros H.
  rewrite truthy_false_not_create by exact H. reflexivity.
Qed.

Lemma owed_entered (a : App) :
  workaroundActive (app_session a) = Some "create_web_id" -> owed a = 1.
Proof. unfold owed, workaround_entered. intros H. rewrite H. reflexivity. Qed.

(** The invariant of a run of redirect completions, from either state. *)
Lemma workaround_run_invariant (cs : list Call) (a : App) :
  Forall (fun c => route c = OidcRedirect) cs ->
  truthy (workaroundActive (app_session a)) = false
  \/ workaroundActive (app_session a) = Some "create_web_id" ->
  let a' := fst (serve_all cs a) in
  let t := snd (serve_all cs a) in
  (truthy (workaroundActive (app_session a')) = false
   \/ workaroundActive (app_session a') = Some "create_web_id")
  /\ count is_workaround_entry t + owed a = count is_workaround_clear t + owed a'
  /\ count is_workaround_clear t <= count is_provisioning t
  /\ count is_provisioning t <= count is_token_exchange t
  /\ count is_login t = count is_workaround_entry t + count is_workaround_clear t.
Proof.
  intros Hall. revert a.
  induction Hall as [|c rest Hc Hrest IH]; intros a Ha.
  - cbn [serve_all fst snd]. repeat split; auto.
  - destruct c as [r w req l]; cbn [route] in Hc; subst r.
    pose proof (step_from_unset w req l a) as Hu.
    pose proof (step_from_entered w req l a) as He.
    cbv zeta in Hu, He. cbn [serve_all].
    destruct (serve (mkCall OidcRedirect w req l) a) as [a1 t1].
    cbn [fst snd] in Hu, He.
    assert (Ha1 : (truthy (workaroundActive (app_session a1)) = false
                   \/ workaroundActive (app_session a1) = Some "create_web_id")
                  /\ count is_workaround_entry t1 + owed a
                     = count is_workaround_clear t1 + owed a1
                  /\ count is_workaround_clear t1 <= count is_provisioning t1
                  /\ count is_provisioning t1 <= count is_token_exchange t1
                  /\ count is_login t1
                     = count is_workaround_entry t1 + count is_workaround_clear t1).
    { destruct Ha as [Ha | Ha].
      - destruct (Hu Ha) as [Hc0 [Hp0 [Ht0 [[Hsame [He0 Hl0]] | [Hent [He1 Hl1]]]]]].
        + assert (Hun : truthy (workaroundActive (app_session a1)) = false)
            by (rewrite Hsame; exact Ha).
          rewrite (owed_unset a Ha), (owed_unset a1 Hun). repeat split; auto; lia.
        + rewrite (owed_unset a Ha), (owed_entered a1 Hent). repeat split; auto; lia.
      - destruct (He Ha) as [He0 [_ [[Hent [Hc0 [Hl0 Hpt]]] | [Hnone [Hc1 [Hl1 [Hp1 Ht1]]]]]]].
        + rewrite (owed_entered a Ha), (owed_entered a1 Hent). repeat split; auto; lia.
        + assert (Hun : truthy (workaroundActive (app_session a1)) = false)
            by (rewrite Hnone; reflexivity).
          rewrite (owed_entered a Ha), (owed_unset a1 Hun). repeat split; auto; lia. }
    destruct Ha1 as [Hst [Heq [Hcp [Hpt Hlog]]]].
    specialize (IH a1 Hst). cbv zeta in IH.
    destruct (serve_all rest a1) as [a2 t2]. cbn [fst snd] in *.
    destruct IH as [Hst2 [Heq2 [Hcp2 [Hpt2 Hlog2]]]].
    rewrite !count_app. repeat split; auto; lia.
Qed.

(** The round of a first-time user when every capability answers: the
    completion that fails on the missing claim, the provisioning leg, and
    the completion that logs the session in. One token exchange, one
    provisioning, one login redirect with the hint, then [login=success]. *)
Lemma first_time_round
  (w1 w2 w3 : World) (req1 req2 req3 : Request) (l1 l2 l3 : Locals) (a : App)
  (s1 s3 s3' : ISessionInfo) (e : JsError) (url1 url2 raw : string) (u1 u2 : URL)
  (record : OidcRecord) (data : TokenResponse) :
  truthy (workaroundActive (app_session a)) = false ->
  truthy (redirectUrl (app_session a)) = false ->
  session l1 = Some s1 ->
  handleIncomingRedirect w1 (fullUrl req1) s1 = Throw e ->
  startsWith (err_message e) webid_claim_message = true ->
  oidc_login w1 (Some s1) = Ok url1 ->
  URL_parse url1 = Some u1 ->
  storage_get w2 ("solidClientAuthenticationUser:"
                  ++ interpolate (solidSid (app_session a)))%string = Ok (Some raw) ->
  JSON_parse_oidc raw = Ok record ->
  oidc_getToken w2 (query_code req2) (codeVerifier record) (query_state req2) = Ok data ->
  athumi_provisionWebId w2 (id_token data) = Ok tt ->
  oidc_login w2 (session l2) = Ok url2 ->
  URL_parse url2 = Some u2 ->
  session l3 = Some s3 ->
  handleIncomingRedirect w3 (fullUrl req3) s3 = Ok s3' ->
  info_isLoggedIn s3' = true ->
  serve_all [ mkCall OidcRedirect w1 req1 l1;
              mkCall OidcRedirect w2 req2 l2;
              mkCall OidcRedirect w3 req3 l3 ] a
  = (mkApp (with_workaroundActive None
              (with_workaroundActive (Some "create_web_id") (app_session a)))
           (app_globals a),
     [ EvHandleIncomingRedirect (fullUrl req1);
       EvSessionWrite "workaroundActive" (Some "create_web_id");
       EvLogin (Some s1);
       EvRespond (Redirect (URL_href (add_rrn_scope u1)));
       EvStorageGet ("solidClientAuthenticationUser:"
                     ++ interpolate (solidSid (app_session a)))%string;
       EvGetToken (query_code req2) (codeVerifier record) (query_state req2);
       EvProvisionWebId (id_token data);
       EvSessionWrite "workaroundActive" None;
       EvLogin (session l2);
       EvRespond (Redirect (URL_href (URL_set "login_hint" switch_identity_hint
                                               (add_rrn_scope u2))));
       EvHandleIncomingRedirect (fullUrl req3);
       EvRespond (Redirect (URL_href (URL_set "login" "success"
                                               (frontendUrl (app_globals a))))) ]).
Proof.
  destruct a as [cs g]; cbn [app_session app_globals].
  intros Hw Hr Hs1 He Hm Hl1 Hu1 Hg Hp Ht Hpr Hl2 Hu2 Hs3 Hh3 Hli.
  assert (H1 : serve (mkCall OidcRedirect w1 req1 l1) (mkApp cs g)
               = (mkApp (with_workaroundActive (Some "create_web_id") cs) g,
                  [ EvHandleIncomingRedirect (fullUrl req1);
                    EvSessionWrite "workaroundActive" (Some "create_web_id");
                    EvLogin (Some s1);
                    EvRespond (Redirect (URL_href (add_rrn_scope u1))) ])).
  { run_monad. answer. reflexivity. }
  assert (H2 : serve (mkCall OidcRedirect w2 req2 l2)
                     (mkApp (with_workaroundActive (Some "create_web_id") cs) g)
               = (mkApp (with_workaroundActive None
                           (with_workaroundActive (Some "create_web_id") cs)) g,
                  [ EvStorageGet ("solidClientAuthenticationUser:"
                                  ++ interpolate (solidSid cs))%string;
                    EvGetToken (query_code req2) (codeVerifier record) (query_state req2);
                    EvProvisionWebId (id_token data);
                    EvSessionWrite "workaroundActive" None;
                    EvLogin (session l2);
                    EvRespond (Redirect (URL_href (URL_set "login_hint" switch_identity_hint
                                                            (add_rrn_scope u2)))) ])).
  { run_monad. answer. reflexivity. }
  assert (H3 : serve (mkCall OidcRedirect w3 req3 l3)
                     (mkApp (with_workaroundActive None
                               (with_workaroundActive (Some "create_web_id") cs)) g)
               = (mkApp (with_workaroundActive None
                           (with_workaroundActive (Some "create_web_id") cs)) g,
                  [ EvHandleIncomingRedirect (fullUrl req3);
                    EvRespond (Redirect (URL_href (URL_set "login" "success"
                                                            (frontendUrl g)))) ])).
  { run_monad. answer.
    destruct (redirectUrl cs) as [r|]; simpl in *; [rewrite Hr|]; reflexivity. }
  cbn [serve_all]. rewrite H1, H2, H3. reflexivity.
Qed.

(** C3, as the code has it. In every sequence of redirect completions that
    starts with the workaround not entered:
    - the entries into the workaround and the completed provisioning legs
      (the deletions of [workaroundActive]) alternate: there are as many
      entries as completed legs, plus one when the workaround is entered at
      the end;
    - every completed leg has its provisioning call and every provisioning
      call its token exchange, and the login is called once per entry and
      once per completed leg;
    - while the workaround is entered, the next redirect completion calls
      neither [handleIncomingRedirect] nor enters the workaround again.
    Nothing bounds the number of such rounds. *)
Theorem workaround_entries_and_provisionings_alternate (cs : list Call) (a : App) :
  Forall (fun c => route c = OidcRedirect) cs ->
  truthy (workaroundActive (app_session a)) = false ->
  let a' := fst (serve_all cs a) in
  let t := snd (serve_all cs a) in
  count is_workaround_entry t = count is_workaround_clear t + owed a'
  /\ count is_workaround_clear t <= count is_provisioning t
  /\ count is_provisioning t <= count is_token_exchange t
  /\ count is_login t = count is_workaround_entry t + count is_workaround_clear t
  /\ (workaround_entered a' = true ->
      forall w req l,
        count is_redirect_completion (snd (serve (mkCall OidcRedirect w req l) a')) = 0
        /\ count is_workaround_entry (snd (serve (mkCall OidcRedirect w req l) a')) = 0).
Proof.
  intros Hall Ha.
  destruct (workaround_run_invariant cs a Hall (or_introl Ha))
    as [Hst [Heq [Hcp [Hpt Hlog]]]].
  rewrite (owed_unset a Ha) in Heq.
  repeat split; try assumption; try lia.
  - destruct Hst as [Hun | Hent].
    + unfold workaround_entered in H.
      rewrite truthy_false_not_create in H by exact Hun. discriminate.
    + apply (step_from_entered w req l _ Hent).
  - destruct Hst as [Hun | Hent].
    + unfold workaround_entered in H.
      rewrite truthy_false_not_create in H by exact Hun. discriminate.
    + apply (step_from_entered w req l _ Hent).
Qed.

End WorkaroundProperties.

(** C3 fails as stated: after one [/login], the provider keeps issuing
    tokens without a [webid] claim; the first provisioning is followed by a
    second entry into the workaround and a second provisioning before the
    session is logged in. *)
Lemma provisioning_can_repeat :
  let t := snd (serve_all (P := Reference.platform)
                          Sample.twice_provisioned Sample.fresh_app) in
  count is_workaround_entry t = 2
  /\ count is_token_exchange t = 2
  /\ count is_provisioning t = 2
  /\ responses t
     = [ Redirect "https://idp.example/op/auth?client_id=demo&scope=openid+profile+rrn";
         Redirect "https://idp.example/op/auth?client_id=demo&scope=openid+profile+rrn";
         Redirect "https://idp.example/op/auth?client_id=demo&scope=openid+profile+rrn&login_hint=eyJzd2l0Y2hfaWQiOiB0cnVlfQ%3D%3D";
         Redirect "https://idp.example/op/auth?client_id=demo&scope=openid+profile+rrn";
         Redirect "https://idp.example/op/auth?client_id=demo&scope=openid+profile+rrn&login_hint=eyJzd2l0Y2hfaWQiOiB0cnVlfQ%3D%3D";
         Redirect "http://localhost:4200/?login=success" ].
Proof. vm_compute. repeat split; reflexivity. Qed.

(** The amended C3 on the redirect completions of that run. *)
Lemma workaround_entries_and_provisionings_alternate_run :
  let t := snd (serve_all (P := Reference.platform)
                          Sample.redirect_completions Sample.fresh_app) in
  count is_workaround_entry t
  = count is_workaround_clear t
    + owed (fst (serve_all (P := Reference.platform)
                           Sample.redirect_completions Sample.fresh_app)).
Proof.
  exact (proj1 (workaround_entries_and_provisionings_alternate
                  (P := Reference.platform)
                  Sample.redirect_completions Sample.fresh_app
                  ltac:(repeat constructor) eq_refl)).
Defined.

(** The first login of a user whose WebID is created by the first
    provisioning: one entry, one token exchange, one provisioning, one
    login redirect with the hint, then [login=success]. *)
Lemma first_login_provisions_once :
  let t := snd (serve_all (P := Reference.platform)
                          Sample.first_login Sample.fresh_app) in
  count is_workaround_entry t = 1
  /\ count is_token_exchange t = 1
  /\ count is_provisioning t = 1
  /\ responses t
     = [ Redirect "https://idp.example/op/auth?client_id=demo&scope=openid+profile+rrn";
         Redirect "https://idp.example/op/auth?client_id=demo&scope=openid+profile+rrn";
         Redirect "https://idp.example/op/auth?client_id=demo&scope=openid+profile+rrn&login_hint=eyJzd2l0Y2hfaWQiOiB0cnVlfQ%3D%3D";
         Redirect "http://localhost:4200/?login=success" ].
Proof. vm_compute. repeat split; reflexivity. Qed.

(** * Further properties of the handlers *)

(** ** [URLSearchParams.set], as the login callbacks use it *)

Lemma searchParams_delete_none (n : string) (l : list (string * string)) :
  filter (fun p => String.eqb (fst p) n) (searchParams_delete n l) = [].
Proof.
  induction l as [|[k v] r IH]; simpl; [reflexivity|].
  destruct (String.eqb k n) eqn:Hk; simpl; [exact IH|].
  rewrite Hk. exact IH.
Qed.
Lemma searchParams_delete_twice (n : string) (l : list (string * string)) :
  searchParams_delete n (searchParams_delete n l) = searchParams_delete n l.
Proof.
  induction l as [|[k v] r IH]; simpl; [reflexivity|].
  destruct (String.eqb k n) eqn:Hk; simpl; [exact IH|].
  rewrite Hk; simpl. rewrite IH. reflexivity.
Qed.
Lemma searchParams_set_once (n v : string) (l : list (string * string)) :
  List.length (filter (fun p => String.eqb (fst p) n) (searchParams_set n v l)) = 1.
Proof.
  unfold searchParams_set, searchParams_has.
  induction l as [|[k x] r IH]; simpl.
  - rewrite String.eqb_refl. reflexivity.
  - destruct (String.eqb k n) eqn:Hk; simpl.
    + rewrite Hk; simpl. rewrite searchParams_delete_none. reflexivity.
    + destruct (existsb (fun p => String.eqb (fst p) n) r); simpl; rewrite Hk;
        exact IH.
Qed.
Lemma searchParams_set_has (n v : string) (l : list (string * string)) :
  searchParams_has n (searchParams_set n v l) = true.
Proof.
  unfold searchParams_set, searchParams_has.
  induction l as [|[k x] r IH]; simpl.
  - rewrite String.eqb_refl. reflexivity.
  - destruct (String.eqb k n) eqn:Hk; simpl.
    + rewrite Hk. reflexivity.
    + destruct (existsb (fun p => String.eqb (fst p) n) r); simpl; rewrite Hk;
        exact IH.
Qed.
Lemma searchParams_replace_set (n v : string) (l : list (string * string)) :
  searchParams_replace n v (searchParams_set n v l) = searchParams_set n v l.
Proof.
  unfold searchParams_set, searchParams_has.
  induction l as [|[k x] r IH]; simpl.
  - rewrite String.eqb_refl. reflexivity.
  - destruct (String.eqb k n) eqn:Hk; simpl.
    + rewrite Hk. rewrite searchParams_delete_twice. reflexivity.
    + destruct (existsb (fun p => String.eqb (fst p) n) r); simpl; rewrite Hk;
        rewrite IH; reflexivity.
Qed.
(** Setting the same parameter to the same value twice is setting it once. *)
Lemma URL_set_twice (n v : string) (u : URL) :
  URL_set n v (URL_set n v u) = URL_set n v u.
Proof.
  unfold URL_set; simpl. f_equal.
  unfold searchParams_set at 1. rewrite searchParams_set_has.
  apply searchParams_replace_set.
Qed.

(** ** [/login] *)

Section LoginProperties.
Context {P : Platform}.

Lemma add_rrn_scope_facts (u : URL) :
  URL_get "scope" (add_rrn_scope u) = Some (scope_with_rrn u)
  /\ occurrences "scope" (add_rrn_scope u) = 1
  /\ (forall n, String.eqb "scope" n = false ->
                URL_get n (add_rrn_scope u) = URL_get n u)
  /\ url_rest (add_rrn_scope u) = url_rest u.
Proof.
  unfold add_rrn_scope, scope_with_rrn, occurrences.
  repeat split.
  - apply URL_get_set_same.
  - apply searchParams_set_once.
  - intros n Hn. apply URL_get_set_other. exact Hn.
Qed.

(** X1. The scope workaround of the login callbacks. The URL it returns
    has exactly one [scope] parameter, whatever the provider sent: the
    provider's first [scope] followed by [ rrn], or [rrn] alone when the
    provider sent none or an empty one. Every other parameter and the rest
    of the URL are as the provider sent them. *)
Theorem add_rrn_scope_sets_one_scope (u : URL) :
  URL_get "scope" (add_rrn_scope u) = Some (scope_with_rrn u)
  /\ occurrences "scope" (add_rrn_scope u) = 1
  /\ (forall n, String.eqb "scope" n = false ->
                URL_get n (add_rrn_scope u) = URL_get n u)
  /\ url_rest (add_rrn_scope u) = url_rest u.
Proof. exact (add_rrn_scope_facts u). Qed.

Lemma target_cases (req : Request) :
  target_acceptable req ->
  truthy (query_redirectUrl req) = false
  \/ exists r u, query_redirectUrl req = Some r /\ truthy_string r = true
                 /\ URL_parse r = Some u.
Proof.
  unfold target_acceptable. intros H.
  destruct (query_redirectUrl req) as [r|] eqn:Hq; [|left; reflexivity].
  destruct (truthy_string r) eqn:Hr; [|left; exact Hr].
  destruct (URL_parse r) as [u|] eqn:Hu.
  - right. exists r, u. auto.
  - exfalso. apply (H r eq_refl Hr). exact Hu.
Qed.

(** X2. [GET /login], when the provider hands over a login URL: the one
    answer is the redirect to that URL with the [rrn] scope, and with the
    fixed login hint exactly when [switchIdentity] is a non-empty string
    (whatever it says); without it the [login_hint] of the answer is the
    one the provider's URL had. *)
Theorem login_redirects_with_scope_and_hint
  (w : World) (req : Request) (l : Locals) (a : App) (url : string) (u : URL) :
  target_acceptable req ->
  oidc_login w (Some (new_Session w)) = Ok url ->
  URL_parse url = Some u ->
  let target := if truthy (query_switchIdentity req)
                then URL_set "login_hint" switch_identity_hint (add_rrn_scope u)
                else add_rrn_scope u in
  responses (snd (serve (mkCall Login w req l) a)) = [Redirect (URL_href target)]
  /\ URL_get "scope" target = Some (scope_with_rrn u)
  /\ URL_get "login_hint" target
     = (if truthy (query_switchIdentity req) then Some switch_identity_hint
        else URL_get "login_hint" u).
Proof.
  destruct a as [cs g]. intros Hreq Hl Hu. cbv zeta.
  repeat split.
  - destruct (target_cases req Hreq) as [Hnone | [r [u0 [Hq [Hr Hu0]]]]].
    + run_monad. destruct (query_redirectUrl req) as [r|]; simpl in Hnone.
      * rewrite Hnone. answer. destruct (truthy (query_switchIdentity req)); reflexivity.
      * answer. destruct (truthy (query_switchIdentity req)); reflexivity.
    + run_monad. answer. destruct (truthy (query_switchIdentity req)); reflexivity.
  - destruct (truthy (query_switchIdentity req)).
    + rewrite URL_get_set_other by reflexivity.
      apply (add_rrn_scope_facts u).
    + apply (add_rrn_scope_facts u).
  - destruct (truthy (query_switchIdentity req)).
    + apply URL_get_set_same.
    + apply (add_rrn_scope_facts u). reflexivity.
Qed.

End LoginProperties.

Section LoginFailures.
Context {P : Platform}.

(** X3. [GET /login] with a return target that [new URL] rejects: the
    [TypeError] goes to the error handler before the provider is asked for
    anything, and the return target of the session is left as it was. The
    session id of the new Solid session is already on the cookie session. *)
Theorem login_rejects_malformed_target
  (w : World) (req : Request) (l : Locals) (a : App) (r : string) :
  query_redirectUrl req = Some r ->
  truthy_string r = true ->
  URL_parse r = None ->
  serve (mkCall Login w req l) a
  = (mkApp (with_solidSid (Some (info_sessionId (new_Session w))) (app_session a))
           (app_globals a),
     [ EvNewSession (info_sessionId (new_Session w));
       EvSessionWrite "solidSid" (Some (info_sessionId (new_Session w)));
       EvRespond (NextError (TypeError "Invalid URL")) ]).
Proof.
  destruct a as [cs g]; cbn [app_session app_globals]. intros Hq Hr Hu.
  run_monad. answer. reflexivity.
Qed.

(** X4. What [GET /login] writes, whatever happens: the cookie session
    gets the id of the new Solid session; the return target is the one it
    had or the [href] of the one asked for; the workaround state, the
    grant fields, the pods and the locale are never touched, and neither
    are the globals. In particular a login started while the workaround is
    entered leaves it entered. *)
Theorem login_writes_sid_and_target_only
  (w : World) (req : Request) (l : Locals) (a : App) :
  let a' := fst (serve (mkCall Login w req l) a) in
  solidSid (app_session a') = Some (info_sessionId (new_Session w))
  /\ (redirectUrl (app_session a') = redirectUrl (app_session a)
      \/ exists r u, query_redirectUrl req = Some r /\ URL_parse r = Some u
                     /\ redirectUrl (app_session a') = Some (URL_href u))
  /\ workaroundActive (app_session a') = workaroundActive (app_session a)
  /\ same_grant_fields (app_session a) (app_session a')
  /\ app_globals a' = app_globals a.
Proof.
  destruct a as [cs g]; cbn [app_session app_globals]. cbv zeta.
  unfold same_grant_fields. run_monad.
  destruct (query_redirectUrl req) as [r|]; simpl.
  - destruct (truthy_string r); simpl.
    + destruct (URL_parse r) as [u|] eqn:Hu; simpl.
      * repeat (branch; simpl); repeat split; auto;
          right; exists r, u; auto.
      * repeat split; auto.
    + repeat (branch; simpl); repeat split; auto.
  - repeat (branch; simpl); repeat split; auto.
Qed.

(** X5. [GET /login] without a return target (absent or empty) keeps the
    one an earlier login left on the session, and the next redirect
    completion that logs the session in redirects to that earlier target;
    the stored session holds it afterwards as well. *)
Theorem login_without_target_keeps_earlier_one
  (w1 w2 : World) (req1 req2 : Request) (l1 l2 : Locals) (a : App)
  (s s' : ISessionInfo) (r : string) (u : URL) :
  truthy (query_redirectUrl req1) = false ->
  redirectUrl (app_session a) = Some r ->
  truthy_string r = true ->
  URL_parse r = Some u ->
  truthy (workaroundActive (app_session a)) = false ->
  session l2 = Some s ->
  handleIncomingRedirect w2 (fullUrl req2) s = Ok s' ->
  info_isLoggedIn s' = true ->
  let a1 := fst (serve (mkCall Login w1 req1 l1) a) in
  redirectUrl (app_session a1) = Some r
  /\ responses (snd (serve (mkCall OidcRedirect w2 req2 l2) a1))
     = [Redirect (URL_href (URL_set "login" "success" u))]
  /\ redirectUrl (app_session (fst (serve (mkCall OidcRedirect w2 req2 l2) a1)))
     = Some r.
Proof.
  destruct a as [cs g]; cbn [app_session app_globals].
  intros Hq Hr Htr Hu Hw Hs Hh Hl. cbv zeta.
  assert (H1 : fst (serve (mkCall Login w1 req1 l1) (mkApp cs g))
               = mkApp (with_solidSid (Some (info_sessionId (new_Session w1))) cs) g).
  { run_monad.
    destruct (query_redirectUrl req1) as [q|]; simpl in Hq; simpl;
      [rewrite Hq; simpl|];
      repeat (branch; simpl); reflexivity. }
  rewrite H1. split; [exact Hr|].
  assert (H2 : serve (mkCall OidcRedirect w2 req2 l2)
                     (mkApp (with_solidSid (Some (info_sessionId (new_Session w1))) cs) g)
               = (mkApp (with_solidSid (Some (info_sessionId (new_Session w1))) cs) g,
                  [ EvHandleIncomingRedirect (fullUrl req2);
                    EvRespond (Redirect (URL_href (URL_set "login" "success" u)));
                    EvSessionWrite "redirectUrl" None ])).
  { run_monad. answer. reflexivity. }
  rewrite H2. split; [reflexivity | exact Hr].
Qed.

(** X6. When the provider's login fails in [GET /login], its error is
    what the error handler gets, and nothing is redirected; the cookie
    session keeps the new session id and the return target just stored. *)
Theorem login_failure_reaches_error_handler
  (w : World) (req : Request) (l : Locals) (a : App) (e : JsError) :
  target_acceptable req ->
  oidc_login w (Some (new_Session w)) = Throw e ->
  responses (snd (serve (mkCall Login w req l) a)) = [NextError e]
  /\ count is_login (snd (serve (mkCall Login w req l) a)) = 1
  /\ solidSid (app_session (fst (serve (mkCall Login w req l) a)))
     = Some (info_sessionId (new_Session w))
  /\ forall r u, query_redirectUrl req = Some r -> truthy_string r = true ->
                 URL_parse r = Some u ->
                 redirectUrl (app_session (fst (serve (mkCall Login w req l) a)))
                 = Some (URL_href u).
Proof.
  destruct a as [cs g]. intros Hreq He.
  destruct (target_cases req Hreq) as [Hnone | [r [u0 [Hq [Hr Hu0]]]]].
  - run_monad. destruct (query_redirectUrl req) as [r|]; simpl in Hnone; simpl.
    + rewrite Hnone. answer. repeat split. intros r0 u0 Hq Hr0. inversion Hq; subst.
      congruence.
    + answer. repeat split. intros r0 u0 Hq. discriminate.
  - run_monad. answer. repeat split.
    intros r0 u1 Hq' _ Hu1. inversion Hq'; subst. congruence.
Qed.

End LoginFailures.

(** X1 on the reference platform: a provider URL with two scopes. *)
Lemma add_rrn_scope_example :
  Reference.URL_href
    (add_rrn_scope (mkURL "https://idp.example/op/auth"
                          [("scope", "openid"); ("client_id", "demo"); ("scope", "x")]))
  = "https://idp.example/op/auth?scope=openid+rrn&client_id=demo".
Proof. reflexivity. Qed.

(** X2 on the reference platform: [switchIdentity=false] is a non-empty
    string, so the hint is set; the provider sent no scope. *)
Lemma login_redirects_with_scope_and_hint_run :
  responses (snd (serve (P := Reference.platform)
                        (mkCall Login Edge.bare_login Edge.switch_request Sample.no_session)
                        Sample.fresh_app))
  = [ Redirect
        "https://idp.example/op/auth?client_id=demo&scope=rrn&login_hint=eyJzd2l0Y2hfaWQiOiB0cnVlfQ%3D%3D" ].
Proof.
  exact (proj1 (login_redirects_with_scope_and_hint (P := Reference.platform)
                  Edge.bare_login Edge.switch_request Sample.no_session Sample.fresh_app
                  "https://idp.example/op/auth?client_id=demo" _
                  ltac:(intros r Hq; discriminate Hq) eq_refl eq_refl)).
Defined.

(** X3 on the reference platform: a relative path is not a URL. *)
Lemma login_rejects_malformed_target_run :
  serve (P := Reference.platform)
        (mkCall Login Sample.returning_user (Sample.login_request (Some "/profile"))
                Sample.no_session)
        (mkApp Edge.cookie_with_target Sample.frontend)
  = (mkApp (mkCookie (Some "sid-1") (Some "http://localhost:4200/profile?tab=pods")
                     None None None None None)
           Sample.frontend,
     [ EvNewSession "sid-1";
       EvSessionWrite "solidSid" (Some "sid-1");
       EvRespond (NextError (TypeError "Invalid URL")) ]).
Proof.
  exact (login_rejects_malformed_target (P := Reference.platform)
           Sample.returning_user (Sample.login_request (Some "/profile"))
           Sample.no_session (mkApp Edge.cookie_with_target Sample.frontend)
           "/profile" eq_refl eq_refl eq_refl).
Defined.

(** X5 on the reference platform. *)
Lemma login_without_target_keeps_earlier_one_run :
  responses (snd (serve (P := Reference.platform)
         (mkCall OidcRedirect Sample.returning_user Sample.redirect_request Sample.pending)
         (fst (serve (P := Reference.platform)
                 (mkCall Login Sample.returning_user (Sample.login_request None)
                         Sample.no_session)
                 (mkApp Edge.cookie_with_target Sample.frontend)))))
  = [Redirect "http://localhost:4200/profile?tab=pods&login=success"].
Proof.
  exact (proj1 (proj2 (login_without_target_keeps_earlier_one (P := Reference.platform)
                  Sample.returning_user Sample.returning_user
                  (Sample.login_request None) Sample.redirect_request
                  Sample.no_session Sample.pending
                  (mkApp Edge.cookie_with_target Sample.frontend)
                  Sample.pending_info Sample.logged_in_info
                  "http://localhost:4200/profile?tab=pods" _
                  eq_refl eq_refl eq_refl eq_refl eq_refl eq_refl eq_refl eq_refl))).
Defined.

(** X6 on the reference platform. *)
Lemma login_failure_reaches_error_handler_run :
  responses (snd (serve (P := Reference.platform)
                        (mkCall Login Sample.down (Sample.login_request None)
                                Sample.no_session)
                        Sample.fresh_app))
  = [NextError (Sample.error "login failed")].
Proof.
  exact (proj1 (login_failure_reaches_error_handler (P := Reference.platform)
                  Sample.down (Sample.login_request None) Sample.no_session
                  Sample.fresh_app _
                  ltac:(intros r Hq; discriminate Hq) eq_refl)).
Defined.

(** ** [/oidc-redirect], off the expected path *)

Section RedirectEdges.
Context {P : Platform}.

(** X7. For a [workaroundActive] that is neither unset nor
    [create_web_id] (the [delete_pod] branch is empty, and any other value
    has no branch), [/oidc-redirect] does nothing at all: it calls no
    capability, writes nothing and sends no answer, not even an error. *)
Theorem redirect_with_unknown_workaround_never_answers
  (w : World) (req : Request) (l : Locals) (a : App) :
  workaround_handled (app_session a) = false ->
  serve (mkCall OidcRedirect w req l) a = (a, []).
Proof.
  destruct a as [cs g]; unfold workaround_handled; cbn [app_session app_globals].
  intros H. apply orb_false_elim in H. destruct H as [Ht Hc].
  apply negb_false_iff in Ht.
  run_monad. rewrite Ht, Hc; simpl.
  destruct (option_string_eqb (workaroundActive cs) "delete_pod"); reflexivity.
Qed.

(** X8. [/oidc-redirect] never leaves a rejection unhandled and never
    answers twice: it sends exactly one answer (a redirect or an error for
    the error handler) when [workaroundActive] is unset or
    [create_web_id], and none otherwise. *)
Theorem redirect_answers_once_or_never
  (w : World) (req : Request) (l : Locals) (a : App) :
  let t := snd (serve (mkCall OidcRedirect w req l) a) in
  count is_response t = (if workaround_handled (app_session a) then 1 else 0)
  /\ count is_unhandled_rejection t = 0.
Proof.
  destruct a as [cs g]; unfold workaround_handled; cbn [app_session app_globals].
  cbv zeta. run_monad.
  destruct (truthy (workaroundActive cs)); simpl.
  - destruct (option_string_eqb (workaroundActive cs) "create_web_id"); simpl.
    + repeat (branch; simpl); split; reflexivity.
    + destruct (option_string_eqb (workaroundActive cs) "delete_pod");
        split; reflexivity.
  - repeat (branch; simpl); split; reflexivity.
Qed.

(** X9. A redirect completion for which the middleware resolved no
    session (and the workaround is not entered): reading
    [handleIncomingRedirect] off [undefined] throws, the [TypeError] goes
    to the error handler, no capability is called and nothing is
    written. *)
Theorem redirect_without_session_is_an_error
  (w : World) (req : Request) (l : Locals) (a : App) :
  truthy (workaroundActive (app_session a)) = false ->
  session l = None ->
  serve (mkCall OidcRedirect w req l) a
  = (a, [ EvRespond (NextError (TypeError
            "Cannot read properties of undefined (reading 'handleIncomingRedirect')")) ]).
Proof.
  destruct a as [cs g]; cbn [app_session app_globals]. intros Hw Hs.
  run_monad. answer. reflexivity.
Qed.

(** X10. The provisioning leg deletes [workaroundActive] only after the
    provisioning has succeeded. When the stored record is read and parsed,
    the token exchanged and the WebID provisioned, the deletion is in the
    trace, once. When any of these fails (no stored record, a record that
    does not parse, a failed token exchange, a failed provisioning), there
    is no deletion and no login, the session and the globals are exactly
    as before, so the workaround stays entered, and the one answer is the
    error given to the error handler. *)
Theorem provisioning_leg_failure_keeps_workaround
  (w : World) (req : Request) (l : Locals) (a : App) :
  workaroundActive (app_session a) = Some "create_web_id" ->
  (provisioning_succeeds w req (app_session a) = true ->
     count is_workaround_clear (snd (serve (mkCall OidcRedirect w req l) a)) = 1
     /\ workaroundActive (app_session (fst (serve (mkCall OidcRedirect w req l) a)))
        = None)
  /\ (provisioning_succeeds w req (app_session a) = false ->
      fst (serve (mkCall OidcRedirect w req l) a) = a
      /\ count is_workaround_clear (snd (serve (mkCall OidcRedirect w req l) a)) = 0
      /\ count is_login (snd (serve (mkCall OidcRedirect w req l) a)) = 0
      /\ exists e,
           responses (snd (serve (mkCall OidcRedirect w req l) a)) = [NextError e]).
Proof.
  destruct a as [cs g]; cbn [app_session app_globals]. intros Hw.
  unfold provisioning_succeeds.
  split; intros Hp; run_monad; rewrite Hw; simpl.
  - destruct (storage_get w _) as [[raw|]|e0]; try discriminate Hp; simpl.
    destruct (JSON_parse_oidc raw) as [record|e1]; try discriminate Hp; simpl.
    destruct (oidc_getToken w _ _ _) as [data|e2]; try discriminate Hp; simpl.
    destruct (athumi_provisionWebId w _) as [[]|e3]; try discriminate Hp; simpl.
    repeat (branch; simpl); split; reflexivity.
  - destruct (storage_get w _) as [[raw|]|e0]; simpl;
      [| repeat split; eexists; reflexivity ..].
    destruct (JSON_parse_oidc raw) as [record|e1]; simpl;
      [| repeat split; eexists; reflexivity].
    destruct (oidc_getToken w _ _ _) as [data|e2]; simpl;
      [| repeat split; eexists; reflexivity].
    destruct (athumi_provisionWebId w _) as [[]|e3]; try discriminate Hp; simpl.
    repeat split; eexists; reflexivity.
Qed.

(** X11. When the login after a successful provisioning fails, the error
    goes to the error handler, but [workaroundActive] is already deleted:
    the WebID is provisioned and the next redirect completion takes the
    normal branch. *)
Theorem login_failure_after_provisioning
  (w : World) (req : Request) (l : Locals) (a : App)
  (raw : string) (record : OidcRecord) (data : TokenResponse) (e : JsError) :
  workaroundActive (app_session a) = Some "create_web_id" ->
  storage_get w ("solidClientAuthenticationUser:"
                 ++ interpolate (solidSid (app_session a)))%string = Ok (Some raw) ->
  JSON_parse_oidc raw = Ok record ->
  oidc_getToken w (query_code req) (codeVerifier record) (query_state req) = Ok data ->
  athumi_provisionWebId w (id_token data) = Ok tt ->
  oidc_login w (session l) = Throw e ->
  serve (mkCall OidcRedirect w req l) a
  = (mkApp (with_workaroundActive None (app_session a)) (app_globals a),
     [ EvStorageGet ("solidClientAuthenticationUser:"
                     ++ interpolate (solidSid (app_session a)))%string;
       EvGetToken (query_code req) (codeVerifier record) (query_state req);
       EvProvisionWebId (id_token data);
       EvSessionWrite "workaroundActive" None;
       EvLogin (session l);
       EvRespond (NextError e) ]).
Proof.
  destruct a as [cs g]; cbn [app_session app_globals].
  intros Hw Hg Hp Ht Hpr Hl.
  run_monad. answer. reflexivity.
Qed.

(** X12. [/oidc-redirect] writes two fields of the cookie session at
    most, [workaroundActive] and [redirectUrl]: the session id, the grant
    and its expiration, the pods and the locale are as before, whatever
    the capabilities answer. *)
Theorem redirect_keeps_sid_and_grant
  (w : World) (req : Request) (l : Locals) (a : App) :
  let a' := fst (serve (mkCall OidcRedirect w req l) a) in
  solidSid (app_session a') = solidSid (app_session a)
  /\ same_grant_fields (app_session a) (app_session a').
Proof.
  destruct a as [cs g]; cbn [app_session app_globals]. cbv zeta.
  unfold same_grant_fields. run_monad.
  repeat (branch; simpl); repeat split; reflexivity.
Qed.

(** X13. Two redirect completions in a row that end without a logged-in
    session leave the same global front-end URL as one, and send the same
    redirect: the [login=failed] parameter is replaced, not added again. *)
Theorem failed_login_marks_once
  (w1 w2 : World) (req1 req2 : Request) (l1 l2 : Locals) (a : App)
  (s1 s1' s2 s2' : ISessionInfo) :
  truthy (workaroundActive (app_session a)) = false ->
  session l1 = Some s1 ->
  handleIncomingRedirect w1 (fullUrl req1) s1 = Ok s1' ->
  info_isLoggedIn s1' = false ->
  session l2 = Some s2 ->
  handleIncomingRedirect w2 (fullUrl req2) s2 = Ok s2' ->
  info_isLoggedIn s2' = false ->
  let a1 := fst (serve (mkCall OidcRedirect w1 req1 l1) a) in
  fst (serve (mkCall OidcRedirect w2 req2 l2) a1) = a1
  /\ responses (snd (serve (mkCall OidcRedirect w2 req2 l2) a1))
     = responses (snd (serve (mkCall OidcRedirect w1 req1 l1) a))
  /\ occurrences "login" (frontendUrl (app_globals a1)) = 1.
Proof.
  destruct a as [cs g]; cbn [app_session app_globals].
  intros Hw Hs1 Hh1 Hl1 Hs2 Hh2 Hl2. cbv zeta.
  assert (H1 : serve (mkCall OidcRedirect w1 req1 l1) (mkApp cs g)
               = (mkApp cs (mkGlobals (URL_set "login" "failed" (frontendUrl g))),
                  [ EvHandleIncomingRedirect (fullUrl req1);
                    EvFrontendUrlSet "login" "failed";
                    EvRespond (Redirect (URL_href (URL_set "login" "failed"
                                                     (frontendUrl g)))) ])).
  { run_monad. answer. reflexivity. }
  assert (H2 : serve (mkCall OidcRedirect w2 req2 l2)
                     (mkApp cs (mkGlobals (URL_set "login" "failed" (frontendUrl g))))
               = (mkApp cs (mkGlobals (URL_set "login" "failed"
                                         (URL_set "login" "failed" (frontendUrl g)))),
                  [ EvHandleIncomingRedirect (fullUrl req2);
                    EvFrontendUrlSet "login" "failed";
                    EvRespond (Redirect (URL_href (URL_set "login" "failed"
                                 (URL_set "login" "failed" (frontendUrl g))))) ])).
  { run_monad. answer. reflexivity. }
  rewrite H1. cbn [fst snd]. rewrite H2. cbn [fst snd responses].
  rewrite URL_set_twice. repeat split.
  unfold occurrences, URL_set; simpl. apply searchParams_set_once.
Qed.

End RedirectEdges.

(** X7 on the reference platform: the reserved [delete_pod] state. *)
Lemma redirect_with_unknown_workaround_never_answers_run :
  serve (P := Reference.platform)
        (mkCall OidcRedirect Sample.returning_user Sample.redirect_request Sample.pending)
        (mkApp Edge.delete_pod_cookie Sample.frontend)
  = (mkApp Edge.delete_pod_cookie Sample.frontend, []).
Proof.
  exact (redirect_with_unknown_workaround_never_answers (P := Reference.platform)
           Sample.returning_user Sample.redirect_request Sample.pending
           (mkApp Edge.delete_pod_cookie Sample.frontend) eq_refl).
Defined.

(** X9 on the reference platform. *)
Lemma redirect_without_session_is_an_error_run :
  responses (snd (serve (P := Reference.platform)
                        (mkCall OidcRedirect Sample.returning_user Sample.redirect_request
                                Sample.no_session)
                        Sample.fresh_app))
  = [ NextError (TypeError
        "Cannot read properties of undefined (reading 'handleIncomingRedirect')") ].
Proof.
  exact (f_equal (fun r => responses (snd r))
           (redirect_without_session_is_an_error (P := Reference.platform)
              Sample.returning_user Sample.redirect_request Sample.no_session
              Sample.fresh_app eq_refl eq_refl)).
Defined.

(** X10 on the reference platform: the provisioning is refused, and the
    workaround stays entered. *)
Lemma provisioning_leg_failure_keeps_workaround_run :
  fst (serve (P := Reference.platform)
             (mkCall OidcRedirect Edge.bare_login Sample.redirect_request Sample.pending)
             (mkApp Edge.entered_cookie Sample.frontend))
  = mkApp Edge.entered_cookie Sample.frontend
  /\ count is_workaround_clear
       (snd (serve (P := Reference.platform)
               (mkCall OidcRedirect Edge.bare_login Sample.redirect_request Sample.pending)
               (mkApp Edge.entered_cookie Sample.frontend)))
     = 0.
Proof.
  pose proof (proj2 (provisioning_leg_failure_keeps_workaround (P := Reference.platform)
                       Edge.bare_login Sample.redirect_request Sample.pending
                       (mkApp Edge.entered_cookie Sample.frontend) eq_refl) eq_refl)
    as [Hsame [Hclear _]].
  split; [exact Hsame | exact Hclear].
Defined.

(** X11 on the reference platform. *)
Lemma login_failure_after_provisioning_run :
  serve (P := Reference.platform)
        (mkCall OidcRedirect Edge.login_down Sample.redirect_request Sample.pending)
        (mkApp Edge.entered_cookie Sample.frontend)
  = (mkApp (mkCookie (Some "sid-1") None None None None None None) Sample.frontend,
     [ EvStorageGet "solidClientAuthenticationUser:sid-1";
       EvGetToken (Some "c0de") (Some "pkce-verifier-1") (Some "st8");
       EvProvisionWebId (Some "id-token-1");
       EvSessionWrite "workaroundActive" None;
       EvLogin (Some Sample.pending_info);
       EvRespond (NextError (Sample.error "login failed")) ]).
Proof.
  exact (login_failure_after_provisioning (P := Reference.platform)
           Edge.login_down Sample.redirect_request Sample.pending
           (mkApp Edge.entered_cookie Sample.frontend)
           Sample.stored_record _ _ _
           eq_refl eq_refl eq_refl eq_refl eq_refl eq_refl).
Defined.

(** X13 on the reference platform. *)
Lemma failed_login_marks_once_run :
  responses (snd (serve (P := Reference.platform)
     (mkCall OidcRedirect Sample.rejected_user Sample.redirect_request Sample.pending)
     (fst (serve (P := Reference.platform)
        (mkCall OidcRedirect Sample.rejected_user Sample.redirect_request Sample.pending)
        Sample.fresh_app))))
  = [Redirect "http://localhost:4200/?login=failed"].
Proof.
  exact (proj1 (proj2 (failed_login_marks_once (P := Reference.platform)
                  Sample.rejected_user Sample.rejected_user
                  Sample.redirect_request Sample.redirect_request
                  Sample.pending Sample.pending Sample.fresh_app
                  Sample.pending_info Sample.pending_info
                  Sample.pending_info Sample.pending_info
                  eq_refl eq_refl eq_refl eq_refl eq_refl eq_refl eq_refl))).
Defined.

(** ** [/logout] and the session *)

Section LogoutState.
Context {P : Platform}.

(** X14. After a [/logout] whose invalidation succeeded the cookie session
    holds no grant, no grant expiration, no pods, no locale and no
    workaround state, while the session id and the return target are kept;
    a [GET /session-information] that then finds no Solid session answers
    the bare [{isLoggedIn: false}]. *)
Theorem logout_clears_then_view_is_bare
  (w w' : World) (req req' : Request) (l l' : Locals) (a : App) (s s' : ISessionInfo) :
  session l = Some s ->
  session_logout w s = Ok s' ->
  session l' = None ->
  let a1 := fst (serve (mkCall Logout w req l) a) in
  accessGrant (app_session a1) = None
  /\ accessGrantExpirationDate (app_session a1) = None
  /\ sess_pods (app_session a1) = None
  /\ locale (app_session a1) = None
  /\ workaroundActive (app_session a1) = None
  /\ solidSid (app_session a1) = solidSid (app_session a)
  /\ redirectUrl (app_session a1) = redirectUrl (app_session a)
  /\ serve (mkCall SessionInformationRoute w' req' l') a1
     = (a1, [EvRespond (Json (mkView false None None None None None))]).
Proof.
  destruct a as [cs g]; cbn [app_session app_globals]. intros Hs Hl Hs'. cbv zeta.
  rewrite (logout_trace w req l _ s Hs), Hl. cbn [fst app_session].
  repeat split.
  run_monad. rewrite Hs'. reflexivity.
Qed.

(** X15. A [/logout] whose invalidation fails clears nothing: the cookie
    session, grant and workaround state included, and the globals are
    exactly as before the request. *)
Theorem failed_logout_clears_nothing
  (w : World) (req : Request) (l : Locals) (a : App) (s : ISessionInfo) (e : JsError) :
  session l = Some s ->
  session_logout w s = Throw e ->
  fst (serve (mkCall Logout w req l) a) = a
  /\ count is_workaround_clear (snd (serve (mkCall Logout w req l) a)) = 0.
Proof.
  intros Hs Hl. rewrite (logout_trace w req l a s Hs), Hl. split; reflexivity.
Qed.

End LogoutState.

(** ** [/session-information], at the edges *)

Section SessionEdges.
Context {P : Platform}.

(** X16. The date of the view. For a session whose [expirationDate] is
    the number [z], the view carries the ISO print of [z * 1000]
    milliseconds when that is a time value (at most 8.64e15 in absolute
    value); beyond it the handler throws and the error handler gets the
    [RangeError]. *)
Theorem session_date_is_seconds_within_range
  (w : World) (req : Request) (l : Locals) (a : App) (s : ISessionInfo) (z : Z) :
  session l = Some s ->
  info_expirationDate s = Some z ->
  ((Z.abs (z * 1000) <=? maxTimeValue)%Z = false ->
     serve (mkCall SessionInformationRoute w req l) a
     = (a, [EvRespond (NextError (RangeError "Invalid time value"))]))
  /\ ((Z.abs (z * 1000) <=? maxTimeValue)%Z = true ->
      forall a' v,
        serve (mkCall SessionInformationRoute w req l) a = (a', [EvRespond (Json v)]) ->
        expirationDate v = Some (Date_iso (z * 1000))).
Proof.
  destruct a as [cs g]. intros Hs Hz. split; intros Hr.
  - run_monad. rewrite Hs; simpl. rewrite Hz; simpl. rewrite Hr. reflexivity.
  - intros a' v. run_monad. rewrite Hs; simpl. rewrite Hz; simpl. rewrite Hr; simpl.
    repeat (branch; simpl); intros H; inversion H; reflexivity.
Qed.

(** X17. [GET /session-information] only reads: it sends exactly one
    answer (the view or an error) and leaves the cookie session and the
    globals as they were, for every session and every stored grant. *)
Theorem session_information_reads_only
  (w : World) (req : Request) (l : Locals) (a : App) :
  exists r, serve (mkCall SessionInformationRoute w req l) a = (a, [EvRespond r]).
Proof.
  destruct a as [cs g]. run_monad.
  repeat (branch; simpl); eexists; reflexivity.
Qed.

(** X18. A grant on the cookie session that [JSON.parse] rejects makes the
    whole view fail: the parse error goes to the error handler, also when
    the session itself could be shown. *)
Theorem unparsable_stored_grant_fails_the_view
  (w : World) (req : Request) (l : Locals) (a : App) (raw : string) (e : JsError) :
  session_date_prints l ->
  accessGrant (app_session a) = Some raw ->
  truthy_string raw = true ->
  JSON_parse_grant raw = Throw e ->
  serve (mkCall SessionInformationRoute w req l) a = (a, [EvRespond (NextError e)]).
Proof.
  destruct a as [cs g]; cbn [app_session app_globals].
  unfold session_date_prints. intros Hd Hg Hr Hp.
  run_monad. rewrite Hg; simpl. rewrite Hr, Hp; simpl.
  destruct (session l) as [s|]; simpl; [|reflexivity].
  destruct (new_Date_number (times (info_expirationDate s) 1000)); [|congruence].
  simpl. reflexivity.
Qed.

End SessionEdges.

(** X14 on the reference platform. *)
Lemma logout_clears_then_view_is_bare_run :
  serve (P := Reference.platform)
        (mkCall SessionInformationRoute Sample.returning_user Sample.plain_request
                Sample.no_session)
        (fst (serve (P := Reference.platform)
                (mkCall Logout Sample.returning_user Sample.plain_request Sample.logged_in)
                (mkApp Sample.cookie_with_grant Sample.frontend)))
  = (mkApp (mkCookie (Some "sid-1") None None None None None None) Sample.frontend,
     [EvRespond (Json (mkView false None None None None None))]).
Proof.
  exact (proj2 (proj2 (proj2 (proj2 (proj2 (proj2 (proj2
    (logout_clears_then_view_is_bare (P := Reference.platform)
       Sample.returning_user Sample.returning_user
       Sample.plain_request Sample.plain_request
       Sample.logged_in Sample.no_session
       (mkApp Sample.cookie_with_grant Sample.frontend)
       Sample.logged_in_info _ eq_refl eq_refl eq_refl)))))))).
Defined.

(** X15 on the reference platform. *)
Lemma failed_logout_clears_nothing_run :
  fst (serve (P := Reference.platform)
             (mkCall Logout Sample.down Sample.plain_request Sample.logged_in)
             (mkApp Sample.cookie_with_grant Sample.frontend))
  = mkApp Sample.cookie_with_grant Sample.frontend.
Proof.
  exact (proj1 (failed_logout_clears_nothing (P := Reference.platform)
                  Sample.down Sample.plain_request Sample.logged_in
                  (mkApp Sample.cookie_with_grant Sample.frontend)
                  Sample.logged_in_info _ eq_refl eq_refl)).
Defined.

(** X16 on the reference platform: one second past the last date. *)
Lemma session_date_is_seconds_within_range_run :
  serve (P := Reference.platform)
        (mkCall SessionInformationRoute Sample.returning_user Sample.plain_request
                Edge.far_future)
        Sample.fresh_app
  = (Sample.fresh_app, [EvRespond (NextError (RangeError "Invalid time value"))]).
Proof.
  exact (proj1 (session_date_is_seconds_within_range (P := Reference.platform)
                  Sample.returning_user Sample.plain_request Edge.far_future
                  Sample.fresh_app _ 8640000000001%Z eq_refl eq_refl) eq_refl).
Defined.

(** X18 on the reference platform. *)
Lemma unparsable_stored_grant_fails_the_view_run :
  serve (P := Reference.platform)
        (mkCall SessionInformationRoute Sample.returning_user Sample.plain_request
                Sample.logged_in)
        (mkApp Edge.cookie_with_broken_grant Sample.frontend)
  = (mkApp Edge.cookie_with_broken_grant Sample.frontend,
     [EvRespond (NextError Reference.unexpected_token)]).
Proof.
  exact (unparsable_stored_grant_fails_the_view (P := Reference.platform)
           Sample.returning_user Sample.plain_request Sample.logged_in
           (mkApp Edge.cookie_with_broken_grant Sample.frontend)
           "not json" _ ltac:(vm_compute; discriminate) eq_refl eq_refl eq_refl).
Defined.

(** ** [POST /access-grant], off the expected path *)

Section AccessGrantEdges.
Context {P : Platform}.

(** X19. A grant whose [expirationDate] is missing or is no date is
    stored half: its JSON replaces the grant of the session, then
    [toISOString] throws, the [RangeError] goes to the error handler, and
    the expiration on the session stays the one of the grant before. *)
Theorem grant_without_date_is_stored_half
  (w : World) (req : Request) (l : Locals) (a : App) (G : AccessGrant) :
  vc_fetchAccessGrant w (body_accessGrantId req) (correlationId req) = Ok G ->
  new_Date_string (grant_expirationDate G) = None ->
  serve (mkCall AccessGrantRoute w req l) a
  = (mkApp (with_accessGrant (Some (JSON_stringify_grant G)) (app_session a))
           (app_globals a),
     [ EvFetchAccessGrant (body_accessGrantId req) (correlationId req);
       EvSessionWrite "accessGrant" (Some (JSON_stringify_grant G));
       EvRespond (NextError (RangeError "Invalid time value")) ])
  /\ accessGrantExpirationDate
       (app_session (fst (serve (mkCall AccessGrantRoute w req l) a)))
     = accessGrantExpirationDate (app_session a).
Proof.
  destruct a as [cs g]; cbn [app_session app_globals]. intros Hf Hd.
  assert (H : serve (mkCall AccessGrantRoute w req l) (mkApp cs g)
              = (mkApp (with_accessGrant (Some (JSON_stringify_grant G)) cs) g,
                 [ EvFetchAccessGrant (body_accessGrantId req) (correlationId req);
                   EvSessionWrite "accessGrant" (Some (JSON_stringify_grant G));
                   EvRespond (NextError (RangeError "Invalid time value")) ])).
  { run_monad. rewrite Hf; simpl. rewrite Hd. reflexivity. }
  rewrite H. split; reflexivity.
Qed.

(** X20. When the grant service cannot resolve the id, its error goes to
    the error handler and the session keeps the grant it had. *)
Theorem unresolved_grant_changes_nothing
  (w : World) (req : Request) (l : Locals) (a : App) (e : JsError) :
  vc_fetchAccessGrant w (body_accessGrantId req) (correlationId req) = Throw e ->
  serve (mkCall AccessGrantRoute w req l) a
  = (a, [ EvFetchAccessGrant (body_accessGrantId req) (correlationId req);
          EvRespond (NextError e) ]).
Proof.
  destruct a as [cs g]. intros Hf. run_monad. rewrite Hf. reflexivity.
Qed.

(** X21. Storing a second grant replaces the first: after two successful
    [POST /access-grant] the session holds the JSON and the expiration of
    the second, whatever the first was. *)
Theorem second_grant_replaces_first
  (w1 w2 : World) (req1 req2 : Request) (l1 l2 : Locals) (a : App)
  (G1 G2 : AccessGrant) (t1 t2 : Z) :
  vc_fetchAccessGrant w1 (body_accessGrantId req1) (correlationId req1) = Ok G1 ->
  new_Date_string (grant_expirationDate G1) = Some t1 ->
  vc_fetchAccessGrant w2 (body_accessGrantId req2) (correlationId req2) = Ok G2 ->
  new_Date_string (grant_expirationDate G2) = Some t2 ->
  let a2 := fst (serve (mkCall AccessGrantRoute w2 req2 l2)
                       (fst (serve (mkCall AccessGrantRoute w1 req1 l1) a))) in
  accessGrant (app_session a2) = Some (JSON_stringify_grant G2)
  /\ accessGrantExpirationDate (app_session a2) = Some (Date_iso t2)
  /\ a2 = fst (serve (mkCall AccessGrantRoute w2 req2 l2) a).
Proof.
  destruct a as [cs g]. intros Hf1 Hd1 Hf2 Hd2. cbv zeta.
  assert (H1 : fst (serve (mkCall AccessGrantRoute w1 req1 l1) (mkApp cs g))
               = mkApp (with_accessGrantExpirationDate (Some (Date_iso t1))
                          (with_accessGrant (Some (JSON_stringify_grant G1)) cs)) g).
  { run_monad. rewrite Hf1; simpl. rewrite Hd1. reflexivity. }
  rewrite H1. run_monad. rewrite Hf2; simpl. rewrite Hd2. simpl.
  repeat split.
Qed.

(** X22. [POST /access-grant] writes the grant and its expiration and
    nothing else: the session id, the return target, the workaround
    state, the pods, the locale and the globals are as before, whatever
    the grant service answers. *)
Theorem access_grant_keeps_login_state
  (w : World) (req : Request) (l : Locals) (a : App) :
  let a' := fst (serve (mkCall AccessGrantRoute w req l) a) in
  same_login_fields (app_session a) (app_session a')
  /\ app_globals a' = app_globals a.
Proof.
  destruct a as [cs g]; cbn [app_session app_globals]. cbv zeta.
  unfold same_login_fields. run_monad.
  repeat (branch; simpl); repeat split; reflexivity.
Qed.

End AccessGrantEdges.

(** X19 on the reference platform: a grant without a date arrives while
    the session holds an earlier grant; the view then shows the new id
    next to the old expiration. *)
Lemma grant_without_date_is_stored_half_run :
  accessGrantExpirationDate
    (app_session (fst (serve (P := Reference.platform)
       (mkCall AccessGrantRoute Edge.bare_login Sample.grant_request Sample.logged_in)
       (mkApp Sample.cookie_with_grant Sample.frontend))))
  = Some "2030-01-01T00:00:00.000Z".
Proof.
  exact (proj2 (grant_without_date_is_stored_half (P := Reference.platform)
                  Edge.bare_login Sample.grant_request Sample.logged_in
                  (mkApp Sample.cookie_with_grant Sample.frontend)
                  _ eq_refl eq_refl)).
Defined.

Lemma half_stored_grant_view :
  snd (serve (P := Reference.platform)
         (mkCall SessionInformationRoute Sample.returning_user Sample.plain_request
                 Sample.no_session)
         (fst (serve (P := Reference.platform)
                 (mkCall AccessGrantRoute Edge.bare_login Sample.grant_request
                         Sample.logged_in)
                 (mkApp Sample.cookie_with_grant Sample.frontend))))
  = [ EvRespond (Json (mkView false None (Some "https://vc.example/grant/43")
                              (Some "2030-01-01T00:00:00.000Z") None None)) ].
Proof. vm_compute. reflexivity. Qed.

(** X20 on the reference platform. *)
Lemma unresolved_grant_changes_nothing_run :
  serve (P := Reference.platform)
        (mkCall AccessGrantRoute Sample.down Sample.grant_request Sample.logged_in)
        (mkApp Sample.cookie_with_grant Sample.frontend)
  = (mkApp Sample.cookie_with_grant Sample.frontend,
     [ EvFetchAccessGrant (Some "https://vc.example/grant/42") (Some "corr-1");
       EvRespond (NextError (Sample.error "grant not found")) ]).
Proof.
  exact (unresolved_grant_changes_nothing (P := Reference.platform)
           Sample.down Sample.grant_request Sample.logged_in
           (mkApp Sample.cookie_with_grant Sample.frontend) _ eq_refl).
Defined.

(** X21 on the reference platform. *)
Lemma second_grant_replaces_first_run :
  accessGrantExpirationDate
    (app_session (fst (serve (P := Reference.platform)
       (mkCall AccessGrantRoute Edge.second_grant Sample.grant_request Sample.logged_in)
       (fst (serve (P := Reference.platform)
          (mkCall AccessGrantRoute Sample.returning_user Sample.grant_request
                  Sample.logged_in)
          Sample.fresh_app)))))
  = Some "2031-06-15T12:00:00.000Z".
Proof.
  exact (proj1 (proj2 (second_grant_replaces_first (P := Reference.platform)
                  Sample.returning_user Edge.second_grant
                  Sample.grant_request Sample.grant_request
                  Sample.logged_in Sample.logged_in Sample.fresh_app
                  _ _ 1893456000000%Z 1939291200000%Z
                  eq_refl eq_refl eq_refl eq_refl))).
Defined.

(** ** The return target and the workaround state over several requests *)

Section AcrossRequests.
Context {P : Platform}.

(** X23. The return target survives the provisioning round of a
    first-time user: neither the completion that enters the workaround nor
    the provisioning leg reads or clears it, and the completion that
    finally logs the session in redirects to it with [login=success]. At
    the end the workaround state is unset, and the stored session still
    holds the target (its delete comes after the response). *)
Theorem return_target_survives_provisioning
  (w1 w2 w3 : World) (req1 req2 req3 : Request) (l1 l2 l3 : Locals) (a : App)
  (s1 s3 s3' : ISessionInfo) (e : JsError) (url1 url2 raw r : string) (u1 u2 u : URL)
  (record : OidcRecord) (data : TokenResponse) :
  truthy (workaroundActive (app_session a)) = false ->
  redirectUrl (app_session a) = Some r ->
  truthy_string r = true ->
  URL_parse r = Some u ->
  session l1 = Some s1 ->
  handleIncomingRedirect w1 (fullUrl req1) s1 = Throw e ->
  startsWith (err_message e) webid_claim_message = true ->
  oidc_login w1 (Some s1) = Ok url1 ->
  URL_parse url1 = Some u1 ->
  storage_get w2 ("solidClientAuthenticationUser:"
                  ++ interpolate (solidSid (app_session a)))%string = Ok (Some raw) ->
  JSON_parse_oidc raw = Ok record ->
  oidc_getToken w2 (query_code req2) (codeVerifier record) (query_state req2) = Ok data ->
  athumi_provisionWebId w2 (id_token data) = Ok tt ->
  oidc_login w2 (session l2) = Ok url2 ->
  URL_parse url2 = Some u2 ->
  session l3 = Some s3 ->
  handleIncomingRedirect w3 (fullUrl req3) s3 = Ok s3' ->
  info_isLoggedIn s3' = true ->
  let run := serve_all [ mkCall OidcRedirect w1 req1 l1;
                         mkCall OidcRedirect w2 req2 l2;
                         mkCall OidcRedirect w3 req3 l3 ] a in
  responses (snd run)
  = [ Redirect (URL_href (add_rrn_scope u1));
      Redirect (URL_href (URL_set "login_hint" switch_identity_hint (add_rrn_scope u2)));
      Redirect (URL_href (URL_set "login" "success" u)) ]
  /\ redirectUrl (app_session (fst run)) = Some r
  /\ workaroundActive (app_session (fst run)) = None.
Proof.
  destruct a as [cs g]; cbn [app_session app_globals].
  intros Hw Hr Htr Hu Hs1 He Hm Hl1 Hu1 Hg Hp Ht Hpr Hl2 Hu2 Hs3 Hh3 Hli.
  assert (H1 : serve (mkCall OidcRedirect w1 req1 l1) (mkApp cs g)
               = (mkApp (with_workaroundActive (Some "create_web_id") cs) g,
                  [ EvHandleIncomingRedirect (fullUrl req1);
                    EvSessionWrite "workaroundActive" (Some "create_web_id");
                    EvLogin (Some s1);
                    EvRespond (Redirect (URL_href (add_rrn_scope u1))) ])).
  { run_monad. answer. reflexivity. }
  assert (H2 : serve (mkCall OidcRedirect w2 req2 l2)
                     (mkApp (with_workaroundActive (Some "create_web_id") cs) g)
               = (mkApp (with_workaroundActive None
                           (with_workaroundActive (Some "create_web_id") cs)) g,
                  [ EvStorageGet ("solidClientAuthenticationUser:"
                                  ++ interpolate (solidSid cs))%string;
                    EvGetToken (query_code req2) (codeVerifier record) (query_state req2);
                    EvProvisionWebId (id_token data);
                    EvSessionWrite "workaroundActive" None;
                    EvLogin (session l2);
                    EvRespond (Redirect (URL_href (URL_set "login_hint" switch_identity_hint
                                                            (add_rrn_scope u2)))) ])).
  { run_monad. answer. reflexivity. }
  assert (H3 : serve (mkCall OidcRedirect w3 req3 l3)
                     (mkApp (with_workaroundActive None
                               (with_workaroundActive (Some "create_web_id") cs)) g)
               = (mkApp (with_workaroundActive None
                           (with_workaroundActive (Some "create_web_id") cs)) g,
                  [ EvHandleIncomingRedirect (fullUrl req3);
                    EvRespond (Redirect (URL_href (URL_set "login" "success" u)));
                    EvSessionWrite "redirectUrl" None ])).
  { run_monad. answer. reflexivity. }
  cbv zeta. cbn [serve_all]. rewrite H1, H2, H3. repeat split. exact Hr.
Qed.

(** No handler writes a workaround state that [/oidc-redirect] has no code
    for. *)
Lemma workaround_stays_handled_step (c : Call) (a : App) :
  workaround_handled (app_session a) = true ->
  workaround_handled (app_session (fst (serve c a))) = true.
Proof.
  destruct a as [cs g], c as [r w req l]; unfold workaround_handled;
    cbn [app_session app_globals]; intros H; destruct r; run_monad.
  - repeat (branch; simpl); exact H.
  - repeat (branch; simpl); first [exact H | reflexivity].
  - destruct (truthy (workaroundActive cs)) eqn:Ht; simpl in *.
    + rewrite H; simpl. repeat (branch; simpl);
        first [reflexivity | rewrite Ht, H; reflexivity].
    + repeat (branch; simpl); first [reflexivity | rewrite Ht; reflexivity].
  - repeat (branch; simpl); exact H.
  - repeat (branch; simpl); exact H.
Qed.

(** X24. The reserved state is never entered: from a cookie session whose
    [workaroundActive] is unset or [create_web_id], whatever requests
    follow on whatever routes, it is again unset or [create_web_id]; so
    every later redirect completion sends exactly one answer. *)
Theorem workaround_stays_handled (cs : list Call) (a : App) :
  workaround_handled (app_session a) = true ->
  workaround_handled (app_session (fst (serve_all cs a))) = true
  /\ forall w req l,
       count is_response
         (snd (serve (mkCall OidcRedirect w req l) (fst (serve_all cs a)))) = 1.
Proof.
  intros Ha.
  assert (Hinv : workaround_handled (app_session (fst (serve_all cs a))) = true).
  { revert a Ha. induction cs as [|c rest IH]; intros a Ha; [exact Ha|].
    cbn [serve_all].
    pose proof (workaround_stays_handled_step c a Ha) as Hstep.
    destruct (serve c a) as [a1 t1]. cbn [fst] in Hstep.
    specialize (IH a1 Hstep).
    destruct (serve_all rest a1) as [a2 t2]. exact IH. }
  split; [exact Hinv|].
  intros w req l.
  remember (fst (serve_all cs a)) as a2 eqn:Heq. clear Heq.
  destruct a2 as [cs2 g2]; unfold workaround_handled in Hinv;
    cbn [app_session] in Hinv.
  run_monad.
  destruct (truthy (workaroundActive cs2)); simpl in *.
  - rewrite Hinv; simpl. repeat (branch; simpl); reflexivity.
  - repeat (branch; simpl); reflexivity.
Qed.

End AcrossRequests.

(** X23 on the reference platform: a first-time user who asked to come
    back to a page of the front end. *)
Lemma return_target_survives_provisioning_run :
  responses (snd (serve_all (P := Reference.platform)
    [ mkCall OidcRedirect Sample.first_time_user Sample.redirect_request Sample.pending;
      mkCall OidcRedirect Sample.first_time_user Sample.redirect_request Sample.pending;
      mkCall OidcRedirect Sample.returning_user Sample.redirect_request Sample.pending ]
    (mkApp Edge.cookie_with_target Sample.frontend)))
  = [ Redirect "https://idp.example/op/auth?client_id=demo&scope=openid+profile+rrn";
      Redirect "https://idp.example/op/auth?client_id=demo&scope=openid+profile+rrn&login_hint=eyJzd2l0Y2hfaWQiOiB0cnVlfQ%3D%3D";
      Redirect "http://localhost:4200/profile?tab=pods&login=success" ].
Proof.
  exact (proj1 (return_target_survives_provisioning (P := Reference.platform)
    Sample.first_time_user Sample.first_time_user Sample.returning_user
    Sample.redirect_request Sample.redirect_request Sample.redirect_request
    Sample.pending Sample.pending Sample.pending
    (mkApp Edge.cookie_with_target Sample.frontend)
    Sample.pending_info Sample.pending_info Sample.logged_in_info _
    Sample.login_url Sample.login_url Sample.stored_record
    "http://localhost:4200/profile?tab=pods" _ _ _ _ _
    eq_refl eq_refl eq_refl eq_refl eq_refl eq_refl eq_refl eq_refl eq_refl
    eq_refl eq_refl eq_refl eq_refl eq_refl eq_refl eq_refl eq_refl eq_refl)).
Defined.

(** X24 on the reference platform: after the run of a user provisioned
    twice, a redirect completion still sends one answer. *)
Lemma workaround_stays_handled_run :
  count is_response
    (snd (serve (P := Reference.platform)
            (mkCall OidcRedirect Sample.down Sample.redirect_request Sample.no_session)
            (fst (serve_all (P := Reference.platform)
                            Sample.twice_provisioned Sample.fresh_app))))
  = 1.
Proof.
  exact (proj2 (workaround_stays_handled (P := Reference.platform)
                  Sample.twice_provisioned Sample.fresh_app eq_refl)
               Sample.down Sample.redirect_request Sample.no_session).
Defined.
